(** * satlas.py: tile resolution, parallel fetch and stitching

    A shallow embedding of [src/satlas.py].  Python floats are IEEE binary64
    values, modelled by Rocq's primitive floats; Python ints are [Z]; a
    function that can raise returns a [result].  The collaborators the program
    calls but does not define (libm behind [math], pyproj, requests, PIL's
    decoder) are records of functions the definitions take as a parameter.
    Console output ([print]) is not modelled. *)

From Stdlib Require Import ZArith QArith Qround Lia List String Bool.
From Stdlib Require Import DecimalString Permutation FinFun.
From Stdlib Require DecimalPos DecimalZ.
From Stdlib Require Import PrimFloat FloatOps SpecFloat.
Import ListNotations.

Set Warnings "-inexact-float".
Open Scope Z_scope.

(** ** Exceptions *)

Inductive exn : Type :=
| ValueError
| OverflowError
| ZeroDivisionError
| CRSError
| ProjError
| ConnectionError
| UnidentifiedImageError.

Inductive result (A : Type) : Type :=
| Ok (a : A)
| Raise (e : exn).

Arguments Ok {A} a.
Arguments Raise {A} e.

Definition bind {A B : Type} (r : result A) (k : A -> result B) : result B :=
  match r with
  | Ok a => k a
  | Raise e => Raise e
  end.

Notation "x <- r ;; k" := (bind r (fun x => k))
  (at level 61, r at next level, right associativity).
Notation "' p <- r ;; k" := (bind r (fun x => let p := x in k))
  (at level 61, p pattern, r at next level, right associativity).

(** ** Python numbers *)

Module PyNum.

(** The exact value of a finite binary64 float, [(-1)^s * m * 2^e], as a
    rational.  Zeros, infinities and NaN are sent to 0; the conversions
    below never ask for the value of an infinity or a NaN. *)
Definition SF2Q (sf : spec_float) : Q :=
  match sf with
  | S754_finite s m e =>
      let n := if s then Z.neg m else Z.pos m in
      if 0 <=? e then inject_Z (n * 2 ^ e)
      else Qmake n (Z.to_pos (2 ^ (- e)))
  | _ => 0%Q
  end.

Definition value (f : float) : Q := SF2Q (Prim2SF f).

Definition is_finite (f : float) : bool :=
  match Prim2SF f with
  | S754_nan | S754_infinity _ => false
  | _ => true
  end.

(** Rounding a rational toward zero. *)
Definition Qtrunc (q : Q) : Z := Z.quot (Qnum q) (Z.pos (Qden q)).

(** [int(f)]: truncation toward zero; [ValueError] on NaN, [OverflowError]
    on an infinity. *)
Definition py_int (f : float) : result Z :=
  match Prim2SF f with
  | S754_nan => Raise ValueError
  | S754_infinity _ => Raise OverflowError
  | sf => Ok (Qtrunc (SF2Q sf))
  end.

(** [math.floor(f)]: rounding toward negative infinity, with the same
    errors.  The program never calls it; the specification speaks of it. *)
Definition py_floor (f : float) : result Z :=
  match Prim2SF f with
  | S754_nan => Raise ValueError
  | S754_infinity _ => Raise OverflowError
  | sf => Ok (Qfloor (SF2Q sf))
  end.

(** [a / b] on floats: [ZeroDivisionError] when the divisor is a zero. *)
Definition py_truediv (a b : float) : result float :=
  if is_zero b then Raise ZeroDivisionError else Ok (a / b)%float.

(** Conversion of an int operand to float (round to nearest, ties to even),
    [OverflowError] when the int is too large for a finite float. *)
Definition float_of_int (z : Z) : result float :=
  let f := SF2Prim (binary_normalize prec emax z 0 false) in
  if is_infinity f then Raise OverflowError else Ok f.

(** The value of [2 ** zoom]: an int for a non-negative exponent, the float
    [2.0 ** zoom] for a negative one. *)
Inductive pynum : Type :=
| PyInt (z : Z)
| PyFloat (f : float).

Definition py_pow2 (zoom : Z) : pynum :=
  if zoom <? 0 then PyFloat (Z.ldexp 1 zoom) else PyInt (2 ^ zoom).

(** [f * n] for a float [f]: an int operand is converted first. *)
Definition py_mul (f : float) (n : pynum) : result float :=
  match n with
  | PyInt z => g <- float_of_int z ;; Ok (f * g)%float
  | PyFloat g => Ok (f * g)%float
  end.

(** [str(z)], as an f-string formats an int. *)
Definition str_int (z : Z) : string := NilZero.string_of_int (Z.to_int z).

End PyNum.
Import PyNum.

(** ** The math module *)

(** [math.tan], [math.cos] and [math.log] are libm calls behind CPython's
    error checks: each returns a float or raises. *)
Record Libm : Type := {
  math_tan : float -> result float;
  math_cos : float -> result float;
  math_log : float -> result float
}.

(** [math.pi], the binary64 value nearest to pi. *)
Definition math_pi : float := 0x1.921fb54442d18p+1%float.

(** [math.radians(x)] is [x * (pi / 180)] in CPython. *)
Definition math_radians (x : float) : float := (x * (math_pi / 180))%float.

(** ** Tile Indexer: [lat_lon_to_tile_indices] *)

Definition lat_lon_to_tile_indices (M : Libm) (lat lon : float) (zoom : Z)
  : result (Z * Z) :=
  let n := py_pow2 zoom in
  a <- py_truediv (lon + 180)%float 360%float ;;
  b <- py_mul a n ;;
  x_tile <- py_int b ;;
  t <- math_tan M (math_radians lat) ;;
  c <- math_cos M (math_radians lat) ;;
  s <- py_truediv 1%float c ;;
  l <- math_log M (t + s)%float ;;
  u <- py_truediv l math_pi ;;
  v <- py_truediv (1 - u)%float 2%float ;;
  w <- py_mul v n ;;
  y_tile <- py_int w ;;
  Ok (x_tile, y_tile).

(** The two floats handed to [int(...)]: the scaled longitude and the scaled
    Mercator ordinate. *)
Definition x_scaled (lon : float) (zoom : Z) : result float :=
  a <- py_truediv (lon + 180)%float 360%float ;;
  py_mul a (py_pow2 zoom).

Definition y_scaled (M : Libm) (lat : float) (zoom : Z) : result float :=
  t <- math_tan M (math_radians lat) ;;
  c <- math_cos M (math_radians lat) ;;
  s <- py_truediv 1%float c ;;
  l <- math_log M (t + s)%float ;;
  u <- py_truediv l math_pi ;;
  v <- py_truediv (1 - u)%float 2%float ;;
  py_mul v (py_pow2 zoom).

(** The latitude domain of the indexer: strictly between the poles. *)
Definition valid_latitude (lat : float) : bool :=
  ((-90 <? lat) && (lat <? 90))%float.

(** A libm double that knows the equator only: [tan 0 = 0], [cos 0 = 1] and
    [log 1 = 0], which every libm returns exactly; any other argument is a
    domain error. *)
Definition equator_libm : Libm := {|
  math_tan := fun x => if is_zero x then Ok x else Raise ValueError;
  math_cos := fun x => if is_zero x then Ok 1%float else Raise ValueError;
  math_log := fun x => if (x =? 1)%float then Ok 0%float else Raise ValueError
|}.

(** ** Coordinate Transformer: [utm_to_latlon] *)

(** pyproj: [Transformer.from_crs(src, dst, always_xy)] builds a transformer
    or raises; [transformer.transform(x, y)] returns a pair or raises. *)
Definition transformer : Type := float -> float -> result (float * float).

Record Pyproj : Type := {
  from_crs : string -> string -> bool -> result transformer
}.

Definition utm_to_latlon (P : Pyproj) (x y : float) (zone : Z) (northern : bool)
  : result (float * float) :=
  tr <- from_crs P ("EPSG:326" ++ str_int zone)%string "EPSG:4326"%string true ;;
  '(lon, lat) <- tr x y ;;
  Ok (lat, lon).

(** ** Region Resolver: [get_tile_bounds_for_utm_region] *)

Definition get_tile_bounds_for_utm_region (P : Pyproj) (M : Libm)
  (ul_x ul_y lr_x lr_y : float) (zoom : Z) (utm_zone : Z)
  : result (Z * Z * Z * Z) :=
  '(lat_ul, lon_ul) <- utm_to_latlon P ul_x ul_y utm_zone true ;;
  '(lat_lr, lon_lr) <- utm_to_latlon P lr_x lr_y utm_zone true ;;
  '(x_ul, y_ul) <- lat_lon_to_tile_indices M lat_ul lon_ul zoom ;;
  '(x_lr, y_lr) <- lat_lon_to_tile_indices M lat_lr lon_lr zoom ;;
  let x_min := Z.min x_ul x_lr in
  let x_max := Z.max x_ul x_lr in
  let y_min := Z.min y_ul y_lr in
  let y_max := Z.max y_ul y_lr in
  Ok (x_min, x_max, y_min, y_max).

(** ** Images *)

Definition rgb : Type := (Z * Z * Z)%type.

(** The colour [Image.new] fills a canvas with when none is given. *)
Definition black : rgb := (0, 0, 0).

(** A decoded raster: its [size] as (width, height) and the RGB value of each
    pixel, as [paste] reads it after PIL's mode conversion. *)
Record Image : Type := {
  size : Z * Z;
  pix : Z -> Z -> rgb
}.

(** Reading a pixel: absent outside the raster. *)
Definition pixel_at (im : Image) (p q : Z) : option rgb :=
  let '(w, h) := size im in
  if (0 <=? p) && (p <? w) && (0 <=? q) && (q <? h)
  then Some (pix im p q) else None.

(** [Image.new("RGB", size)]: a black canvas; a negative dimension is a
    [ValueError]. *)
Definition Image_new (sz : Z * Z) : result Image :=
  let '(w, h) := sz in
  if (w <? 0) || (h <? 0) then Raise ValueError
  else Ok {| size := sz; pix := fun _ _ => black |}.

(** [canvas.paste(tile, (xo, yo))]: the tile's own rectangle, placed with its
    upper-left corner at the offset, overwrites the canvas there; the canvas
    keeps its size, so what falls outside is clipped. *)
Definition paste (canvas tile : Image) (box : Z * Z) : Image :=
  let '(xo, yo) := box in
  let '(tw, th) := size tile in
  {| size := size canvas;
     pix := fun p q =>
       if (xo <=? p) && (p <? xo + tw) && (yo <=? q) && (q <? yo + th)
       then pix tile (p - xo) (q - yo)
       else pix canvas p q |}.

(** ** The tile dictionary *)

(** A Python dict keyed by [(x, y)]: the entries in insertion order, which
    is the order [iter] follows. *)
Definition coord : Type := (Z * Z)%type.

Definition coord_eqb (a b : coord) : bool :=
  (fst a =? fst b) && (snd a =? snd b).

Definition tiles : Type := list (coord * Image).

Fixpoint dict_get (k : coord) (d : tiles) : option Image :=
  match d with
  | [] => None
  | (k', v) :: rest => if coord_eqb k k' then Some v else dict_get k rest
  end.

(** [d[k] = v]: a known key keeps its place, a new key goes last. *)
Fixpoint dict_set (k : coord) (v : Image) (d : tiles) : tiles :=
  match d with
  | [] => [(k, v)]
  | (k', v') :: rest =>
      if coord_eqb k k' then (k, v) :: rest else (k', v') :: dict_set k v rest
  end.

Definition dict_keys (d : tiles) : list coord := map fst d.

(** The dictionary built by storing the entries one after the other. *)
Definition dict_of (entries : list (coord * Image)) : tiles :=
  fold_left (fun d kv => dict_set (fst kv) (snd kv) d) entries [].

(** [range(a, b)]. *)
Definition py_range (a b : Z) : list Z :=
  map (fun i => a + Z.of_nat i) (seq 0 (Z.to_nat (b - a))).

(** ** Stitcher: [stitch_tiles] *)

(** The body of the inner loop. *)
Definition stitch_cell (tiles_dict : tiles) (x_range y_range : Z * Z)
  (width height : Z) (y : Z) (stitched : Image) (x : Z) : Image :=
  match dict_get (x, y) tiles_dict with
  | Some tile =>
      let x_offset := (x - fst x_range) * width in
      let y_offset := (y - fst y_range) * height in
      paste stitched tile (x_offset, y_offset)
  | None => stitched
  end.

Definition stitch_tiles (tiles_dict : tiles) (x_range y_range : Z * Z)
  : result (option Image) :=
  match tiles_dict with
  | [] => Ok None
  | (_, sample_tile) :: _ =>
      let '(width, height) := size sample_tile in
      let grid_width := snd x_range - fst x_range + 1 in
      let grid_height := snd y_range - fst y_range + 1 in
      stitched <- Image_new (width * grid_width, height * grid_height) ;;
      Ok (Some
        (fold_left
           (fun st y =>
              fold_left (stitch_cell tiles_dict x_range y_range width height y)
                (py_range (fst x_range) (snd x_range + 1)) st)
           (py_range (fst y_range) (snd y_range + 1))
           stitched))
  end.

(** The cells of the grid in the order the two loops visit them, and the
    loop body run over a list of cells. *)
Definition grid_cells (x_range y_range : Z * Z) : list coord :=
  flat_map
    (fun y => map (fun x => (x, y)) (py_range (fst x_range) (snd x_range + 1)))
    (py_range (fst y_range) (snd y_range + 1)).

Definition stitch_cells (tiles_dict : tiles) (x_range y_range : Z * Z)
  (width height : Z) (cells : list coord) (stitched : Image) : Image :=
  fold_left
    (fun st c =>
       stitch_cell tiles_dict x_range y_range width height (snd c) st (fst c))
    cells stitched.

(** Every tile of the dictionary has the pixel size [(w, h)]. *)
Definition uniform_size (d : tiles) (w h : Z) : Prop :=
  Forall (fun kv => size (snd kv) = (w, h)) d.

(** ** Tile source: [download_tile] *)

Record response : Type := {
  status_code : Z;
  content : list Byte.byte
}.

(** requests and PIL: [requests.get(url)] answers or raises;
    [Image.open(BytesIO(content))] decodes or raises. *)
Record Http : Type := {
  requests_get : string -> result response;
  Image_open : list Byte.byte -> result Image
}.

Definition tile_url (base_url : string) (z x y : Z) : string :=
  (base_url ++ "/" ++ str_int z ++ "/" ++ str_int x ++ "/" ++ str_int y
   ++ ".webp")%string.

Definition download_tile (H : Http) (x y z : Z) (base_url : string)
  : result (option Image) :=
  let url := tile_url base_url z x y in
  resp <- requests_get H url ;;
  if status_code resp =? 200
  then img <- Image_open H (content resp) ;; Ok (Some img)
  else Ok None.

(** ** Parallel Tile Fetcher: [download_tiles_parallel] *)

(** The task each worker runs.  A PIL image is always truthy, so [if tile]
    tests for [None] only. *)
Definition download_single_tile (H : Http) (zoom : Z) (base_url : string)
  (coords : coord) : result (option (coord * Image)) :=
  let '(x, y) := coords in
  tile <- download_tile H x y zoom base_url ;;
  match tile with
  | Some t => Ok (Some ((x, y), t))
  | None => Ok None
  end.

(** The coordinate pairs, [x] outermost. *)
Definition all_coords (x_start x_end y_start y_end : Z) : list coord :=
  flat_map (fun x => map (fun y => (x, y)) (py_range y_start (y_end + 1)))
    (py_range x_start (x_end + 1)).

(** The collecting loop over the futures in the order they complete:
    [future.result()] re-raises what the task raised, which ends the loop and
    the call; a [None] is skipped; a pair is stored. *)
Fixpoint collect (outcomes : list (result (option (coord * Image))))
  (tiles_dict : tiles) : result tiles :=
  match outcomes with
  | [] => Ok tiles_dict
  | Raise e :: _ => Raise e
  | Ok None :: rest => collect rest tiles_dict
  | Ok (Some (k, tile)) :: rest => collect rest (dict_set k tile tiles_dict)
  end.

(** One run of [download_tiles_parallel], given the order [completed] in
    which [as_completed] yields the futures of the submitted coordinates.
    [ThreadPoolExecutor] refuses a pool of no workers. *)
Definition download_tiles_in_order (H : Http) (completed : list coord)
  (zoom : Z) (base_url : string) (max_workers : Z) : result tiles :=
  if max_workers <=? 0 then Raise ValueError
  else collect (map (download_single_tile H zoom base_url) completed) [].

(** What [download_tiles_parallel] may return: the outcome of a run whose
    completion order is some arrangement of the submitted coordinates. *)
Definition download_tiles_parallel (H : Http)
  (x_start x_end y_start y_end zoom : Z) (base_url : string) (max_workers : Z)
  (r : result tiles) : Prop :=
  exists completed,
    Permutation completed (all_coords x_start x_end y_start y_end) /\
    download_tiles_in_order H completed zoom base_url max_workers = r.

(** The number of tasks submitted for a rectangle. *)
Definition scheduled (x_start x_end y_start y_end : Z) : Z :=
  Z.of_nat (List.length (all_coords x_start x_end y_start y_end)).

(** The pairs the tasks of the given coordinates hand back, in that order. *)
Definition fetched (H : Http) (zoom : Z) (base_url : string)
  (order : list coord) : list (coord * Image) :=
  flat_map
    (fun c =>
       match download_single_tile H zoom base_url c with
       | Ok (Some kv) => [kv]
       | _ => []
       end)
    order.

(** The tasks that end in a non-200 answer, those that store a tile, and
    those that raise. *)
Definition task_failed (H : Http) (zoom : Z) (base_url : string) (c : coord)
  : bool :=
  match download_single_tile H zoom base_url c with
  | Ok None => true
  | _ => false
  end.

Definition task_succeeded (H : Http) (zoom : Z) (base_url : string) (c : coord)
  : bool :=
  match download_single_tile H zoom base_url c with
  | Ok (Some _) => true
  | _ => false
  end.

Definition task_raised (H : Http) (zoom : Z) (base_url : string) (c : coord)
  : bool :=
  match download_single_tile H zoom base_url c with
  | Raise _ => true
  | _ => false
  end.

(** The number of tasks of a rectangle that end in a non-200 answer. *)
Definition failures (H : Http) (x_start x_end y_start y_end zoom : Z)
  (base_url : string) : Z :=
  Z.of_nat
    (List.length
       (filter (task_failed H zoom base_url)
          (all_coords x_start x_end y_start y_end))).

(** ** Doubles of the collaborators, for running the definitions *)

(** A pyproj double for UTM zone 31 north on the equator: the zone's origin
    (easting 500000, northing 0) is longitude 3, latitude 0, and the zone's
    eastern edge on the equator (easting 833978.557) is longitude 6.  Any
    other CRS is unknown; any other point is off the table. *)
Definition equator_pyproj : Pyproj := {|
  from_crs := fun src dst always_xy =>
    if (src =? "EPSG:32631")%string
    then Ok (fun x y =>
               if (x =? 500000)%float && (y =? 0)%float then Ok (3, 0)%float
               else if (x =? 833978.557)%float && (y =? 0)%float
                    then Ok (6, 0)%float
                    else Raise ProjError)
    else Raise CRSError
|}.

(** A pyproj double that knows the southern definition of zone 32 only. *)
Definition southern_pyproj : Pyproj := {|
  from_crs := fun src dst always_xy =>
    if (src =? "EPSG:32732")%string
    then Ok (fun x y => Ok (9, 0)%float)
    else Raise CRSError
|}.

(** Two 256 x 256 tiles: one of a single colour, one whose pixels tell their
    own position. *)
Definition solid_tile (c : rgb) : Image :=
  {| size := (256, 256); pix := fun _ _ => c |}.

Definition gradient_tile : Image :=
  {| size := (256, 256); pix := fun i j => (i, j, 255) |}.

(** A tile of another size. *)
Definition wide_tile : Image :=
  {| size := (512, 256); pix := fun _ _ => (255, 255, 255) |}.

Definition base_url_superres : string :=
  "https://se-tile-api.allen.ai/mosaic/superres/sr2023/tci".

(** A tile server double: at zoom 15 it has the tiles (5, 10) and (6, 11),
    and answers 404 for every other address.  The decoder double reads a
    one-byte payload. *)
Definition decode_double (payload : list Byte.byte) : result Image :=
  match payload with
  | [Byte.x01] => Ok (solid_tile (200, 30, 30))
  | [Byte.x02] => Ok gradient_tile
  | _ => Raise UnidentifiedImageError
  end.

Definition tile_server : Http := {|
  requests_get := fun url =>
    if (url =? tile_url base_url_superres 15 5 10)%string
    then Ok {| status_code := 200; content := [Byte.x01] |}
    else if (url =? tile_url base_url_superres 15 6 11)%string
         then Ok {| status_code := 200; content := [Byte.x02] |}
         else Ok {| status_code := 404; content := [] |};
  Image_open := decode_double
|}.

(** A server double that answers every request with status 200 and a body
    that is no image. *)
Definition html_server : Http := {|
  requests_get := fun url =>
    Ok {| status_code := 200; content := [Byte.x3c; Byte.x68; Byte.x3e] |};
  Image_open := decode_double
|}.

(** ** Further definitions: CRS codes, the pipeline of [main] *)

(** The CRS string [utm_to_latlon] formats for a zone. *)
Definition utm_crs (zone : Z) : string := ("EPSG:326" ++ str_int zone)%string.

(** [extract_geotiff_info], the fallback on the EPSG code: the zone of a
    code in the northern range 32601..32660 or in the southern range
    32701..32760. *)
Definition zone_from_epsg (epsg : Z) : option Z :=
  if (32601 <=? epsg) && (epsg <=? 32660) then Some (epsg - 32600)
  else if (32701 <=? epsg) && (epsg <=? 32760) then Some (epsg - 32700)
  else None.

(** What the last part of [main] does with the tiles. *)
Inductive outcome : Type :=
| Saved (output_filename : string) (stitched_image : Image)
| NoTilesDownloaded
| NothingSaved.

(** [main] from the tile range on: resolve the rectangle, download it with
    the default pool of 10 workers, stitch and save.  [as_completed] is the
    order in which the futures of the submitted coordinates complete. *)
Definition fetch_and_stitch (P : Pyproj) (M : Libm) (H : Http)
  (as_completed : list coord -> list coord)
  (ul_x ul_y lr_x lr_y : float) (ZOOM utm_zone : Z)
  (BASE_URL file_suffix : string) : result outcome :=
  '(x_start, x_end, y_start, y_end) <-
    get_tile_bounds_for_utm_region P M ul_x ul_y lr_x lr_y ZOOM utm_zone ;;
  tiles_dict <-
    download_tiles_in_order H
      (as_completed (all_coords x_start x_end y_start y_end))
      ZOOM BASE_URL 10 ;;
  match tiles_dict with
  | [] => Ok NoTilesDownloaded
  | _ :: _ =>
      stitched_image <-
        stitch_tiles tiles_dict (x_start, x_end) (y_start, y_end) ;;
      match stitched_image with
      | Some img =>
          Ok (Saved ("stitched_image_" ++ file_suffix ++ ".png")%string img)
      | None => Ok NothingSaved
      end
  end.

(** The pixel the stitcher is to show at [(p, q)] of a canvas of [w] x [h]
    cells whose first cell is the tile [(x0, y0)]. *)
Definition cell_pixel (d : tiles) (x0 y0 w h p q : Z) : rgb :=
  match dict_get (x0 + p / w, y0 + q / h) d with
  | Some t => pix t (p mod w) (q mod h)
  | None => black
  end.

(** The size of the tile [stitch_tiles] samples: that of the first entry. *)
Definition sample_size (d : tiles) : option (Z * Z) :=
  option_map (fun kv => size (snd kv)) (hd_error d).

(** Checks on a result, for running over a range of inputs. *)
Definition raises {A : Type} (e : exn) (r : result A) : bool :=
  match r, e with
  | Raise ValueError, ValueError
  | Raise OverflowError, OverflowError
  | Raise ZeroDivisionError, ZeroDivisionError
  | Raise CRSError, CRSError
  | Raise ProjError, ProjError
  | Raise ConnectionError, ConnectionError
  | Raise UnidentifiedImageError, UnidentifiedImageError => true
  | _, _ => false
  end.

(** The projection [utm_to_latlon] would make with a given CRS string. *)
Definition project_with (P : Pyproj) (crs : string) (x y : float)
  : result (float * float) :=
  tr <- from_crs P crs "EPSG:4326"%string true ;;
  '(lon, lat) <- tr x y ;;
  Ok (lat, lon).

(** A pyproj double that knows every CRS and can project no point: it hands
    back infinities, as pyproj does for a point outside a projection. *)
Definition unprojectable_pyproj : Pyproj := {|
  from_crs := fun src dst always_xy =>
    Ok (fun x y => Ok (infinity, infinity))
|}.

(** The characters [str] writes an int with. *)
Definition sign_or_digit (a : Ascii.ascii) : bool :=
  existsb (Ascii.eqb a) (list_ascii_of_string "-0123456789").

(** A tile server double for the equator at zoom 8: it has the tile
    (131, 128) and answers 404 for every other address. *)
Definition equator_server : Http := {|
  requests_get := fun url =>
    if (url =? tile_url base_url_superres 8 131 128)%string
    then Ok {| status_code := 200; content := [Byte.x02] |}
    else Ok {| status_code := 404; content := [] |};
  Image_open := decode_double
|}.

(** A server double that fails on every request. *)
Definition offline_server : Http := {|
  requests_get := fun url => Raise ConnectionError;
  Image_open := decode_double
|}.

(** * Properties *)

(** ** Results *)

Lemma bind_Ok_inv {A B : Type} (r : result A) (k : A -> result B) (b : B) :
  bind r k = Ok b -> exists a, r = Ok a /\ k a = Ok b.
Proof.
  destruct r as [a|e]; simpl; intros E; [exists a; auto | discriminate].
Qed.

Ltac bind_inv H :=
  let a := fresh "a" in
  let E := fresh "E" in
  apply bind_Ok_inv in H; destruct H as (a & E & H).

(** ** Truncation and floor *)

Lemma Qtrunc_nonneg (q : Q) : (0 <= q)%Q -> Qtrunc q = Qfloor q.
Proof.
  destruct q as [n d]; unfold Qle, Qtrunc, Qfloor; simpl; intros Hn.
  apply Z.quot_div_nonneg; lia.
Qed.

Lemma Qtrunc_neg (q : Q) : (q <= 0)%Q -> Qtrunc q = Qceiling q.
Proof.
  destruct q as [n d]; unfold Qle, Qtrunc, Qceiling, Qfloor; simpl; intros Hn.
  replace n with (- - n) at 1 by lia.
  rewrite Z.quot_opp_l by lia.
  rewrite Z.quot_div_nonneg by lia. reflexivity.
Qed.

Lemma Qtrunc_zero_iff (q : Q) : Qtrunc q = 0 <-> (-1 < q /\ q < 1)%Q.
Proof.
  destruct q as [n d]; unfold Qlt, Qtrunc; simpl.
  rewrite Z.quot_small_iff by lia. lia.
Qed.

Lemma py_int_Ok (f : float) :
  is_finite f = true -> py_int f = Ok (Qtrunc (value f)).
Proof.
  unfold is_finite, py_int, value.
  destruct (Prim2SF f); intros E; try discriminate; reflexivity.
Qed.

Lemma py_int_Ok_inv (f : float) (z : Z) :
  py_int f = Ok z -> is_finite f = true /\ z = Qtrunc (value f).
Proof.
  unfold is_finite, py_int, value.
  destruct (Prim2SF f); intros E; try discriminate; inversion E; auto.
Qed.

(** ** The indexer *)

Lemma lat_lon_to_tile_indices_split (M : Libm) (lat lon : float) (zoom : Z) :
  lat_lon_to_tile_indices M lat lon zoom =
  (x_tile <- (v <- x_scaled lon zoom ;; py_int v) ;;
   y_tile <- (v <- y_scaled M lat zoom ;; py_int v) ;;
   Ok (x_tile, y_tile)).
Proof.
  unfold lat_lon_to_tile_indices, x_scaled, y_scaled.
  repeat match goal with
         | |- context [bind ?r _] =>
             lazymatch r with
             | bind _ _ => fail
             | _ => destruct r; simpl; try reflexivity
             end
         end.
Qed.

Lemma lat_lon_to_tile_indices_Ok (M : Libm) (lat lon : float) (zoom : Z)
  (vx vy : float) :
  x_scaled lon zoom = Ok vx -> y_scaled M lat zoom = Ok vy ->
  is_finite vx = true -> is_finite vy = true ->
  lat_lon_to_tile_indices M lat lon zoom
  = Ok (Qtrunc (value vx), Qtrunc (value vy)).
Proof.
  intros Hx Hy Fx Fy.
  rewrite lat_lon_to_tile_indices_split, Hx, Hy; simpl.
  rewrite (py_int_Ok vx Fx), (py_int_Ok vy Fy). reflexivity.
Qed.

Lemma lat_lon_to_tile_indices_Ok_inv (M : Libm) (lat lon : float) (zoom : Z)
  (x y : Z) :
  lat_lon_to_tile_indices M lat lon zoom = Ok (x, y) ->
  exists vx vy,
    x_scaled lon zoom = Ok vx /\ y_scaled M lat zoom = Ok vy /\
    is_finite vx = true /\ is_finite vy = true /\
    x = Qtrunc (value vx) /\ y = Qtrunc (value vy).
Proof.
  rewrite lat_lon_to_tile_indices_split. intros H.
  bind_inv H. bind_inv E. bind_inv H. bind_inv E1.
  inversion H; subst.
  apply py_int_Ok_inv in E, E1. destruct E, E1.
  eexists _, _; repeat split; eauto.
Qed.

(** C5, as amended.  Whenever the two scaled expressions evaluate to finite
    floats, [lat_lon_to_tile_indices] returns their truncations toward zero:
    the floor of an expression that is not negative, the ceiling of one that
    is not positive. *)
Theorem lat_lon_to_tile_indices_truncates (M : Libm) (lat lon : float)
  (zoom : Z) (vx vy : float) :
  x_scaled lon zoom = Ok vx -> y_scaled M lat zoom = Ok vy ->
  is_finite vx = true -> is_finite vy = true ->
  exists x y,
    lat_lon_to_tile_indices M lat lon zoom = Ok (x, y) /\
    x = Qtrunc (value vx) /\ y = Qtrunc (value vy) /\
    ((0 <= value vx)%Q -> x = Qfloor (value vx)) /\
    ((value vx <= 0)%Q -> x = Qceiling (value vx)) /\
    ((0 <= value vy)%Q -> y = Qfloor (value vy)) /\
    ((value vy <= 0)%Q -> y = Qceiling (value vy)).
Proof.
  intros Hx Hy Fx Fy.
  exists (Qtrunc (value vx)), (Qtrunc (value vy)).
  split; [now apply lat_lon_to_tile_indices_Ok|].
  repeat split; auto using Qtrunc_nonneg, Qtrunc_neg.
Qed.

(** At the equator, longitude 3 and zoom 15 the indexer answers tile
    (16657, 16384). *)
Lemma lat_lon_to_tile_indices_truncates_witness :
  exists x y,
    lat_lon_to_tile_indices equator_libm 0 3 15 = Ok (x, y) /\
    x = 16657 /\ y = 16384.
Proof.
  destruct (lat_lon_to_tile_indices_truncates equator_libm 0 3 15
              0x1.04444444444444p+14%float 16384%float)
    as (x & y & H & Hx & Hy & _);
    [vm_compute; reflexivity .. |].
  exists x, y. split; [exact H|].
  split; [rewrite Hx | rewrite Hy]; vm_compute; reflexivity.
Defined.

(** C5, as stated, fails: at longitude -181 and zoom 0 the scaled longitude
    is -1/360, whose floor is -1, and the indexer answers x = 0. *)
Lemma lat_lon_to_tile_indices_not_floor :
  valid_latitude 0 = true /\
  lat_lon_to_tile_indices equator_libm 0 (-181) 0 = Ok (0, 0) /\
  (v <- x_scaled (-181) 0 ;; py_floor v) = Ok (-1).
Proof. vm_compute. repeat split. Qed.

(** C7, as amended.  [lat_lon_to_tile_indices] is a function of its
    arguments, and at zoom 0 it answers (0, 0) exactly when both scaled
    expressions evaluate to finite floats strictly between -1 and 1. *)
Theorem lat_lon_to_tile_indices_zoom0 (M : Libm) (lat lon : float) :
  (forall zoom r1 r2,
     lat_lon_to_tile_indices M lat lon zoom = r1 ->
     lat_lon_to_tile_indices M lat lon zoom = r2 -> r1 = r2) /\
  (lat_lon_to_tile_indices M lat lon 0 = Ok (0, 0) <->
   exists vx vy,
     x_scaled lon 0 = Ok vx /\ y_scaled M lat 0 = Ok vy /\
     is_finite vx = true /\ is_finite vy = true /\
     (-1 < value vx /\ value vx < 1)%Q /\
     (-1 < value vy /\ value vy < 1)%Q).
Proof.
  split; [intros zoom r1 r2 <- <-; reflexivity|].
  split.
  - intros H. apply lat_lon_to_tile_indices_Ok_inv in H.
    destruct H as (vx & vy & Hx & Hy & Fx & Fy & Ex & Ey).
    exists vx, vy. repeat split; auto;
      solve [apply Qtrunc_zero_iff; auto].
  - intros (vx & vy & Hx & Hy & Fx & Fy & Bx & By).
    rewrite (lat_lon_to_tile_indices_Ok M lat lon 0 vx vy Hx Hy Fx Fy).
    apply Qtrunc_zero_iff in Bx, By. rewrite Bx, By. reflexivity.
Qed.

(** On the equator at longitude 3 both scaled expressions are in (-1, 1):
    183/360 and 1/2. *)
Lemma lat_lon_to_tile_indices_zoom0_witness :
  lat_lon_to_tile_indices equator_libm 0 3 0 = Ok (0, 0).
Proof.
  apply (proj2 (lat_lon_to_tile_indices_zoom0 equator_libm 0 3)).
  exists 0x1.04444444444444p-1%float, 0.5%float.
  vm_compute. repeat split; reflexivity.
Defined.

(** C7, as stated, fails: longitude 180 at zoom 0 is tile x = 1. *)
Lemma lat_lon_to_tile_indices_zoom0_lon180 :
  valid_latitude 0 = true /\
  lat_lon_to_tile_indices equator_libm 0 180 0 = Ok (1, 0).
Proof. vm_compute. split; reflexivity. Qed.

(** Rounding makes the same happen just below 180: for the largest float
    under 180 the sum [lon + 180] rounds to 360, and x is 1 again.  So the
    zoom-0 statement is about the scaled expression, not about a range of
    longitudes. *)
Remark lat_lon_to_tile_indices_zoom0_below_180 :
  (next_down 180 <? 180)%float = true /\
  lat_lon_to_tile_indices equator_libm 0 (next_down 180) 0 = Ok (1, 0).
Proof. vm_compute. split; reflexivity. Qed.

(** ** The transformer and the resolver *)

(** C6.  [utm_to_latlon] does not look at its hemisphere flag: the southern
    call is the northern one, and against a pyproj that knows the southern
    definition of zone 32 only it fails for want of the northern one. *)
Theorem utm_to_latlon_ignores_hemisphere :
  (forall P x y zone,
     utm_to_latlon P x y zone false = utm_to_latlon P x y zone true) /\
  utm_to_latlon southern_pyproj 500000 5000000 32 false = Raise CRSError.
Proof. split; [reflexivity | vm_compute; reflexivity]. Qed.

(** C1.  When both corners convert, [get_tile_bounds_for_utm_region] returns
    the minima and maxima of the two corner tiles, so its rectangle is
    ordered on both axes whichever corner has the smaller index. *)
Theorem get_tile_bounds_ordered (P : Pyproj) (M : Libm)
  (ul_x ul_y lr_x lr_y : float) (zoom utm_zone : Z)
  (lat_ul lon_ul lat_lr lon_lr : float) (x_ul y_ul x_lr y_lr : Z) :
  utm_to_latlon P ul_x ul_y utm_zone true = Ok (lat_ul, lon_ul) ->
  utm_to_latlon P lr_x lr_y utm_zone true = Ok (lat_lr, lon_lr) ->
  lat_lon_to_tile_indices M lat_ul lon_ul zoom = Ok (x_ul, y_ul) ->
  lat_lon_to_tile_indices M lat_lr lon_lr zoom = Ok (x_lr, y_lr) ->
  exists x_min x_max y_min y_max,
    get_tile_bounds_for_utm_region P M ul_x ul_y lr_x lr_y zoom utm_zone
    = Ok (x_min, x_max, y_min, y_max) /\
    x_min = Z.min x_ul x_lr /\ x_max = Z.max x_ul x_lr /\
    y_min = Z.min y_ul y_lr /\ y_max = Z.max y_ul y_lr /\
    x_min <= x_max /\ y_min <= y_max.
Proof.
  intros Hul Hlr Tul Tlr.
  unfold get_tile_bounds_for_utm_region.
  rewrite Hul; simpl. rewrite Hlr; simpl.
  rewrite Tul; simpl. rewrite Tlr; simpl.
  eexists _, _, _, _. split; [reflexivity|].
  repeat split; lia.
Qed.

(** Zone 31 on the equator at zoom 15, with the "upper-left" corner east of
    the "lower-right" one: the rectangle is still ordered. *)
Lemma get_tile_bounds_ordered_witness :
  exists x_min x_max y_min y_max,
    get_tile_bounds_for_utm_region equator_pyproj equator_libm
      833978.557 0 500000 0 15 31 = Ok (x_min, x_max, y_min, y_max) /\
    x_min = 16657 /\ x_max = 16930 /\ y_min = 16384 /\ y_max = 16384 /\
    x_min <= x_max /\ y_min <= y_max.
Proof.
  destruct (get_tile_bounds_ordered equator_pyproj equator_libm
              833978.557 0 500000 0 15 31 0 6 0 3 16930 16384 16657 16384)
    as (x_min & x_max & y_min & y_max & H & Hx & HX & Hy & HY & Ox & Oy);
    [vm_compute; reflexivity .. |].
  exists x_min, x_max, y_min, y_max.
  repeat split; assumption.
Defined.

(** ** Ranges and the dictionary *)

Lemma coord_eqb_eq (a b : coord) : coord_eqb a b = true <-> a = b.
Proof.
  destruct a as [a1 a2], b as [b1 b2]; unfold coord_eqb; simpl.
  rewrite andb_true_iff, !Z.eqb_eq.
  split; [intros [-> ->]; reflexivity | intros E; inversion E; auto].
Qed.

Lemma coord_eqb_refl (a : coord) : coord_eqb a a = true.
Proof. now apply coord_eqb_eq. Qed.

Lemma coord_eqb_neq (a b : coord) : coord_eqb a b = false <-> a <> b.
Proof.
  rewrite <- coord_eqb_eq. destruct (coord_eqb a b); split; congruence.
Qed.

Lemma py_range_In (a b z : Z) : In z (py_range a b) <-> a <= z < b.
Proof.
  unfold py_range. rewrite in_map_iff. split.
  - intros (i & <- & Hi). apply in_seq in Hi. lia.
  - intros Hz. exists (Z.to_nat (z - a)). split; [lia|].
    apply in_seq. lia.
Qed.

Lemma py_range_length (a b : Z) :
  Z.of_nat (List.length (py_range a b)) = Z.max 0 (b - a).
Proof. unfold py_range. rewrite length_map, length_seq. lia. Qed.

Lemma py_range_NoDup (a b : Z) : NoDup (py_range a b).
Proof.
  unfold py_range. apply Finite.Injective_map_NoDup; [|apply seq_NoDup].
  intros i j E. lia.
Qed.

Lemma all_coords_In (x_start x_end y_start y_end x y : Z) :
  In (x, y) (all_coords x_start x_end y_start y_end) <->
  x_start <= x <= x_end /\ y_start <= y <= y_end.
Proof.
  unfold all_coords. rewrite in_flat_map. split.
  - intros (x' & Hx & Hy). apply in_map_iff in Hy.
    destruct Hy as (y' & E & Hy). inversion E; subst.
    apply py_range_In in Hx, Hy. lia.
  - intros [Hx Hy]. exists x. split; [apply py_range_In; lia|].
    apply in_map_iff. exists y. split; [reflexivity|apply py_range_In; lia].
Qed.

Lemma flat_map_length_const {A B : Type} (f : A -> list B) (n : nat)
  (l : list A) :
  (forall a, List.length (f a) = n) ->
  List.length (flat_map f l) = (List.length l * n)%nat.
Proof.
  intros Hf. induction l as [|a l IH]; [reflexivity|].
  cbn [flat_map List.length]. rewrite length_app, Hf, IH. reflexivity.
Qed.

Lemma all_coords_length (x_start x_end y_start y_end : Z) :
  Z.of_nat (List.length (all_coords x_start x_end y_start y_end))
  = Z.max 0 (x_end - x_start + 1) * Z.max 0 (y_end - y_start + 1).
Proof.
  unfold all_coords.
  rewrite (flat_map_length_const _
             (List.length (py_range y_start (y_end + 1))))
    by (intros a; apply length_map).
  rewrite Nat2Z.inj_mul, !py_range_length.
  f_equal; f_equal; lia.
Qed.

Lemma all_coords_NoDup (x_start x_end y_start y_end : Z) :
  NoDup (all_coords x_start x_end y_start y_end).
Proof.
  unfold all_coords.
  generalize (py_range_NoDup x_start (x_end + 1)).
  generalize (py_range x_start (x_end + 1)) as xs.
  induction xs as [|x xs IH]; simpl; intros ND; [constructor|].
  inversion ND as [|? ? Hx ND']; subst.
  apply NoDup_app.
  - apply Finite.Injective_map_NoDup; [|apply py_range_NoDup].
    intros a b E; inversion E; reflexivity.
  - apply IH, ND'.
  - intros [x' y'] Hin Hin'.
    apply in_map_iff in Hin. destruct Hin as (? & E & _). inversion E; subst.
    apply in_flat_map in Hin'. destruct Hin' as (x'' & Hx'' & Hy'').
    apply in_map_iff in Hy''. destruct Hy'' as (? & E' & _).
    inversion E'; subst. contradiction.
Qed.

Lemma dict_get_set (k k' : coord) (v : Image) (d : tiles) :
  dict_get k (dict_set k' v d)
  = if coord_eqb k k' then Some v else dict_get k d.
Proof.
  induction d as [|[k0 v0] d IH]; simpl.
  - reflexivity.
  - destruct (coord_eqb k' k0) eqn:E0; simpl.
    + apply coord_eqb_eq in E0; subst k0.
      destruct (coord_eqb k k'); reflexivity.
    + rewrite IH. destruct (coord_eqb k k0) eqn:E1; [|reflexivity].
      apply coord_eqb_eq in E1; subst k0.
      destruct (coord_eqb k k') eqn:E2; [|reflexivity].
      apply coord_eqb_eq in E2; subst. rewrite coord_eqb_refl in E0.
      discriminate.
Qed.

Lemma dict_get_In (k : coord) (v : Image) (d : tiles) :
  dict_get k d = Some v -> In (k, v) d.
Proof.
  induction d as [|[k0 v0] d IH]; simpl; [discriminate|].
  destruct (coord_eqb k k0) eqn:E.
  - apply coord_eqb_eq in E; subst. intros [= ->]. now left.
  - auto.
Qed.

Lemma dict_set_fresh (k : coord) (v : Image) (d : tiles) :
  ~ In k (dict_keys d) -> dict_set k v d = d ++ [(k, v)].
Proof.
  induction d as [|[k0 v0] d IH]; simpl; intros Hn; [reflexivity|].
  destruct (coord_eqb k k0) eqn:E.
  - apply coord_eqb_eq in E; subst. tauto.
  - rewrite IH by tauto. reflexivity.
Qed.

Lemma dict_set_keys (k k' : coord) (v : Image) (d : tiles) :
  In k (dict_keys (dict_set k' v d)) -> k = k' \/ In k (dict_keys d).
Proof.
  induction d as [|[k0 v0] d IH]; simpl.
  - intuition.
  - destruct (coord_eqb k' k0) eqn:E; simpl.
    + apply coord_eqb_eq in E; subst. intuition.
    + intuition.
Qed.

Lemma dict_set_uniform (k : coord) (v : Image) (d : tiles) (w h : Z) :
  size v = (w, h) -> uniform_size d w h -> uniform_size (dict_set k v d) w h.
Proof.
  unfold uniform_size. intros Hv.
  induction d as [|[k0 v0] d IH]; simpl; intros Hd.
  - constructor; auto.
  - inversion Hd; subst.
    destruct (coord_eqb k k0); constructor; auto.
Qed.

Lemma dict_get_uniform (k : coord) (v : Image) (d : tiles) (w h : Z) :
  uniform_size d w h -> dict_get k d = Some v -> size v = (w, h).
Proof.
  unfold uniform_size. rewrite Forall_forall.
  intros Hd Hg. apply (Hd (k, v)), dict_get_In, Hg.
Qed.

(** ** The stitcher *)

Section Stitching.

Variables (tiles_dict : tiles) (x_range y_range : Z * Z) (w h : Z).

Lemma stitch_loops_flat (stitched : Image) :
  fold_left
    (fun st y =>
       fold_left (stitch_cell tiles_dict x_range y_range w h y)
         (py_range (fst x_range) (snd x_range + 1)) st)
    (py_range (fst y_range) (snd y_range + 1)) stitched
  = stitch_cells tiles_dict x_range y_range w h
      (grid_cells x_range y_range) stitched.
Proof.
  unfold grid_cells, stitch_cells.
  generalize (py_range (fst x_range) (snd x_range + 1)) as xs.
  generalize (py_range (fst y_range) (snd y_range + 1)) as ys.
  intros ys xs. revert stitched.
  induction ys as [|y ys IH]; intros st; [reflexivity|].
  cbn [fold_left flat_map]. rewrite fold_left_app, IH. f_equal.
  clear IH. revert st.
  induction xs as [|x xs IHx]; intros st; [reflexivity|].
  cbn [fold_left map]. rewrite IHx. reflexivity.
Qed.

Lemma stitch_cell_size (y x : Z) (st : Image) :
  size (stitch_cell tiles_dict x_range y_range w h y st x) = size st.
Proof.
  unfold stitch_cell. destruct (dict_get (x, y) tiles_dict); [|reflexivity].
  unfold paste. destruct (size i). reflexivity.
Qed.

Lemma stitch_cells_size (cells : list coord) (st : Image) :
  size (stitch_cells tiles_dict x_range y_range w h cells st) = size st.
Proof.
  unfold stitch_cells. revert st.
  induction cells as [|c cells IH]; intros st; [reflexivity|].
  cbn [fold_left]. rewrite IH. apply stitch_cell_size.
Qed.

Hypothesis uniform : uniform_size tiles_dict w h.

(** The pixel [(i, j)] of the cell [(x, y)], in canvas coordinates. *)
Let px (x i : Z) : Z := (x - fst x_range) * w + i.
Let py (y j : Z) : Z := (y - fst y_range) * h + j.

Lemma stitch_cell_elsewhere (x y x' y' i j : Z) (st : Image) :
  (x', y') <> (x, y) -> 0 <= i < w -> 0 <= j < h ->
  pix (stitch_cell tiles_dict x_range y_range w h y' st x') (px x i) (py y j)
  = pix st (px x i) (py y j).
Proof.
  intros Hne Hi Hj. unfold stitch_cell.
  destruct (dict_get (x', y') tiles_dict) as [t|] eqn:G; [|reflexivity].
  pose proof (dict_get_uniform _ _ _ _ _ uniform G) as Hs.
  unfold paste. rewrite Hs. cbn [pix].
  match goal with |- (if ?c then _ else _) = _ => destruct c eqn:C end;
    [exfalso | reflexivity].
  rewrite !andb_true_iff, !Z.leb_le, !Z.ltb_lt in C.
  unfold px, py in C. apply Hne.
  assert (x' = x) by nia. assert (y' = y) by nia. congruence.
Qed.

Lemma stitch_cell_here (x y i j : Z) (t st : Image) :
  dict_get (x, y) tiles_dict = Some t -> 0 <= i < w -> 0 <= j < h ->
  pix (stitch_cell tiles_dict x_range y_range w h y st x) (px x i) (py y j)
  = pix t i j.
Proof.
  intros G Hi Hj. unfold stitch_cell. rewrite G.
  pose proof (dict_get_uniform _ _ _ _ _ uniform G) as Hs.
  unfold paste. rewrite Hs. cbn [pix].
  match goal with |- (if ?c then _ else _) = _ => destruct c eqn:C end.
  - unfold px, py. f_equal; lia.
  - exfalso. rewrite !andb_false_iff, !Z.leb_gt, !Z.ltb_ge in C.
    unfold px, py in C. lia.
Qed.

Lemma stitch_cells_absent (x y i j : Z) (cells : list coord) (st : Image) :
  dict_get (x, y) tiles_dict = None -> 0 <= i < w -> 0 <= j < h ->
  pix (stitch_cells tiles_dict x_range y_range w h cells st)
    (px x i) (py y j)
  = pix st (px x i) (py y j).
Proof.
  intros G Hi Hj. unfold stitch_cells. revert st.
  induction cells as [|[x' y'] cells IH]; intros st; [reflexivity|].
  cbn [fold_left fst snd]. rewrite IH.
  destruct (coord_eqb (x', y') (x, y)) eqn:E.
  - apply coord_eqb_eq in E. inversion E; subst.
    unfold stitch_cell. rewrite G. reflexivity.
  - apply coord_eqb_neq in E. now apply stitch_cell_elsewhere.
Qed.

Lemma stitch_cells_present (x y i j : Z) (t : Image) (cells : list coord)
  (st : Image) :
  dict_get (x, y) tiles_dict = Some t -> 0 <= i < w -> 0 <= j < h ->
  In (x, y) cells \/ pix st (px x i) (py y j) = pix t i j ->
  pix (stitch_cells tiles_dict x_range y_range w h cells st)
    (px x i) (py y j)
  = pix t i j.
Proof.
  intros G Hi Hj. unfold stitch_cells. revert st.
  induction cells as [|[x' y'] cells IH]; intros st Hst.
  - destruct Hst as [[]|Hst]. exact Hst.
  - cbn [fold_left fst snd]. apply IH.
    destruct (coord_eqb (x', y') (x, y)) eqn:E.
    + apply coord_eqb_eq in E. inversion E; subst.
      right. now apply stitch_cell_here.
    + apply coord_eqb_neq in E.
      rewrite stitch_cell_elsewhere by assumption.
      destruct Hst as [[Hc|Hc]|Hst]; [congruence | now left | now right].
Qed.

End Stitching.

Lemma grid_cells_In (x0 x1 y0 y1 x y : Z) :
  In (x, y) (grid_cells (x0, x1) (y0, y1)) <->
  x0 <= x <= x1 /\ y0 <= y <= y1.
Proof.
  unfold grid_cells; cbn [fst snd]. rewrite in_flat_map. split.
  - intros (y' & Hy & Hx). apply in_map_iff in Hx.
    destruct Hx as (x' & E & Hx). inversion E; subst.
    apply py_range_In in Hx, Hy. lia.
  - intros [Hx Hy]. exists y. split; [apply py_range_In; lia|].
    apply in_map_iff. exists x. split; [reflexivity|apply py_range_In; lia].
Qed.

(** What [stitch_tiles] returns on a non-empty dictionary of uniform tiles:
    a canvas of the grid's size whose cell [(x, y)] holds the tile stored
    under [(x, y)], or stays black when there is none. *)
Lemma stitch_tiles_spec (d : tiles) (x0 x1 y0 y1 w h : Z) :
  d <> [] -> uniform_size d w h -> 0 <= w -> 0 <= h ->
  x0 <= x1 -> y0 <= y1 ->
  exists img,
    stitch_tiles d (x0, x1) (y0, y1) = Ok (Some img) /\
    size img = (w * (x1 - x0 + 1), h * (y1 - y0 + 1)) /\
    forall x y i j,
      x0 <= x <= x1 -> y0 <= y <= y1 -> 0 <= i < w -> 0 <= j < h ->
      pixel_at img ((x - x0) * w + i) ((y - y0) * h + j)
      = Some (match dict_get (x, y) d with
              | Some t => pix t i j
              | None => black
              end).
Proof.
  intros Hd Hu Hw Hh Hx Hy.
  destruct d as [|[k0 sample] rest]; [congruence|].
  assert (Hs : size sample = (w, h)) by (inversion Hu; assumption).
  unfold stitch_tiles. rewrite Hs. cbn [fst snd].
  unfold Image_new.
  replace ((w * (x1 - x0 + 1) <? 0) || (h * (y1 - y0 + 1) <? 0)) with false
    by (symmetry; apply orb_false_iff; split; apply Z.ltb_ge; nia).
  cbn [bind]. rewrite stitch_loops_flat.
  eexists. split; [reflexivity|]. split.
  - rewrite stitch_cells_size. reflexivity.
  - intros x y i j Hxr Hyr Hi Hj.
    unfold pixel_at. rewrite stitch_cells_size. cbn [size].
    replace ((0 <=? (x - x0) * w + i) && ((x - x0) * w + i <? w * (x1 - x0 + 1))
             && (0 <=? (y - y0) * h + j)
             && ((y - y0) * h + j <? h * (y1 - y0 + 1))) with true
      by (symmetry; rewrite !andb_true_iff, !Z.leb_le, !Z.ltb_lt; nia).
    f_equal.
    destruct (dict_get (x, y) ((k0, sample) :: rest)) as [t|] eqn:G.
    + apply (stitch_cells_present _ (x0, x1) (y0, y1) w h Hu x y i j t);
        auto.
      left. apply grid_cells_In. lia.
    + rewrite (stitch_cells_absent _ (x0, x1) (y0, y1) w h Hu x y i j);
        auto.
Qed.

(** C3.  On the empty dictionary [stitch_tiles] returns [None].  On a
    non-empty dictionary of uniform tiles, over an ordered rectangle, it
    returns a canvas of the full grid size in which every cell whose address
    is missing from the dictionary is black, the canvas's initial colour. *)
Theorem stitch_tiles_sparse :
  (forall x_range y_range, stitch_tiles [] x_range y_range = Ok None) /\
  (forall d x0 x1 y0 y1 w h,
     d <> [] -> uniform_size d w h -> 0 <= w -> 0 <= h ->
     x0 <= x1 -> y0 <= y1 ->
     exists img,
       stitch_tiles d (x0, x1) (y0, y1) = Ok (Some img) /\
       size img = (w * (x1 - x0 + 1), h * (y1 - y0 + 1)) /\
       forall x y i j,
         x0 <= x <= x1 -> y0 <= y <= y1 -> dict_get (x, y) d = None ->
         0 <= i < w -> 0 <= j < h ->
         pixel_at img ((x - x0) * w + i) ((y - y0) * h + j) = Some black).
Proof.
  split; [reflexivity|].
  intros d x0 x1 y0 y1 w h Hd Hu Hw Hh Hx Hy.
  destruct (stitch_tiles_spec d x0 x1 y0 y1 w h Hd Hu Hw Hh Hx Hy)
    as (img & Hr & Hs & Hp).
  exists img. repeat split; auto.
  intros x y i j Hxr Hyr G Hi Hj.
  rewrite (Hp x y i j Hxr Hyr Hi Hj), G. reflexivity.
Qed.

(** Tiles 5..6 by 10 with only (5, 10) fetched: a 512 x 256 canvas whose
    right half is black. *)
Lemma stitch_tiles_sparse_witness :
  exists img,
    stitch_tiles [((5, 10), solid_tile (200, 30, 30))] (5, 6) (10, 10)
    = Ok (Some img) /\
    size img = (512, 256) /\
    forall i j, 0 <= i < 256 -> 0 <= j < 256 ->
                pixel_at img (256 + i) j = Some black.
Proof.
  destruct (proj2 stitch_tiles_sparse
              [((5, 10), solid_tile (200, 30, 30))] 5 6 10 10 256 256)
    as (img & Hr & Hs & Hp);
    [discriminate | repeat constructor | lia ..|].
  exists img. repeat split; [exact Hr | exact Hs |].
  intros i j Hi Hj.
  apply (Hp 6 10 i j); [lia | lia | reflexivity | lia | lia].
Defined.

(** C4.  A tile stored under an address [(x, y)] of the rectangle, in a
    dictionary of uniform tiles, is found in the canvas at the pixel offset
    [((x - x_min) * width, (y - y_min) * height)]. *)
Theorem stitch_tiles_placement (d : tiles) (x0 x1 y0 y1 w h x y : Z)
  (t : Image) :
  uniform_size d w h -> 0 <= w -> 0 <= h ->
  x0 <= x <= x1 -> y0 <= y <= y1 ->
  dict_get (x, y) d = Some t ->
  exists img,
    stitch_tiles d (x0, x1) (y0, y1) = Ok (Some img) /\
    size img = (w * (x1 - x0 + 1), h * (y1 - y0 + 1)) /\
    forall i j,
      0 <= i < w -> 0 <= j < h ->
      pixel_at img ((x - x0) * w + i) ((y - y0) * h + j) = Some (pix t i j).
Proof.
  intros Hu Hw Hh Hx Hy G.
  assert (Hd : d <> []) by (intros ->; discriminate).
  destruct (stitch_tiles_spec d x0 x1 y0 y1 w h Hd Hu Hw Hh)
    as (img & Hr & Hs & Hp); [lia | lia |].
  exists img. repeat split; auto.
  intros i j Hi Hj. rewrite (Hp x y i j Hx Hy Hi Hj), G. reflexivity.
Qed.

(** The rectangle x 5..6, y 10..10 with 256 x 256 tiles: the tile at
    (6, 10) lands at pixel offset (256, 0) of a 512 x 256 canvas. *)
Lemma stitch_tiles_placement_witness :
  exists img,
    stitch_tiles [((5, 10), solid_tile (200, 30, 30)); ((6, 10), gradient_tile)]
      (5, 6) (10, 10) = Ok (Some img) /\
    size img = (512, 256) /\
    forall i j, 0 <= i < 256 -> 0 <= j < 256 ->
                pixel_at img (256 + i) (0 + j) = Some (i, j, 255).
Proof.
  exact (stitch_tiles_placement
           [((5, 10), solid_tile (200, 30, 30)); ((6, 10), gradient_tile)]
           5 6 10 10 256 256 6 10 gradient_tile
           ltac:(repeat constructor) ltac:(lia) ltac:(lia)
           ltac:(lia) ltac:(lia) eq_refl).
Defined.

(** ** Insertion order *)

Lemma fold_left_pointwise {A B : Type} (f g : A -> B -> A) (l : list B)
  (a : A) :
  (forall a b, f a b = g a b) -> fold_left f l a = fold_left g l a.
Proof.
  intros E. revert a.
  induction l as [|b l IH]; intros a; [reflexivity|].
  cbn [fold_left]. rewrite E. apply IH.
Qed.

Lemma stitch_tiles_ext (d1 d2 : tiles) (x_range y_range : Z * Z) (w h : Z) :
  (forall k, dict_get k d1 = dict_get k d2) ->
  uniform_size d1 w h -> uniform_size d2 w h ->
  stitch_tiles d1 x_range y_range = stitch_tiles d2 x_range y_range.
Proof.
  intros E U1 U2.
  destruct d1 as [|[k1 s1] r1], d2 as [|[k2 s2] r2].
  - reflexivity.
  - specialize (E k2). cbn [dict_get] in E.
    rewrite coord_eqb_refl in E. discriminate.
  - specialize (E k1). cbn [dict_get] in E.
    rewrite coord_eqb_refl in E. discriminate.
  - assert (S1 : size s1 = (w, h)) by (inversion U1; assumption).
    assert (S2 : size s2 = (w, h)) by (inversion U2; assumption).
    unfold stitch_tiles. rewrite S1, S2.
    destruct (Image_new _) as [canvas|e]; [|reflexivity].
    cbn [bind]. do 2 f_equal.
    apply fold_left_pointwise. intros st y.
    apply fold_left_pointwise. intros st' x.
    unfold stitch_cell. rewrite E. reflexivity.
Qed.

Lemma coord_eq_dec (a b : coord) : {a = b} + {a <> b}.
Proof. repeat decide equality. Qed.

Lemma dict_get_fold_set (k : coord) (l : list (coord * Image)) (d0 : tiles) :
  NoDup (map fst l) ->
  (forall v, In (k, v) l ->
     dict_get k (fold_left (fun d kv => dict_set (fst kv) (snd kv) d) l d0)
     = Some v) /\
  (~ In k (map fst l) ->
     dict_get k (fold_left (fun d kv => dict_set (fst kv) (snd kv) d) l d0)
     = dict_get k d0).
Proof.
  revert d0. induction l as [|[k1 v1] l IH]; intros d0 ND.
  - split; [intros v []|reflexivity].
  - cbn [map fst] in ND. inversion ND as [|? ? Hk1 ND']; subst.
    cbn [fold_left fst snd].
    destruct (IH (dict_set k1 v1 d0) ND') as [IH1 IH2].
    split.
    + intros v [E|Hin].
      * inversion E; subst. rewrite IH2 by assumption.
        rewrite dict_get_set, coord_eqb_refl. reflexivity.
      * now apply IH1.
    + intros Hn. cbn [map fst In] in Hn.
      rewrite IH2 by tauto. rewrite dict_get_set.
      destruct (coord_eqb k k1) eqn:E; [|reflexivity].
      apply coord_eqb_eq in E. subst. tauto.
Qed.

Lemma dict_of_permutation (l1 l2 : list (coord * Image)) (k : coord) :
  Permutation l1 l2 -> NoDup (map fst l1) ->
  dict_get k (dict_of l1) = dict_get k (dict_of l2).
Proof.
  intros HP ND1.
  assert (ND2 : NoDup (map fst l2))
    by (eapply Permutation_NoDup; [apply Permutation_map, HP | exact ND1]).
  unfold dict_of.
  destruct (dict_get_fold_set k l1 [] ND1) as [A1 B1].
  destruct (dict_get_fold_set k l2 [] ND2) as [A2 B2].
  destruct (in_dec coord_eq_dec k (map fst l1)) as [Hin|Hn].
  - apply in_map_iff in Hin. destruct Hin as ([k' v] & E & Hin).
    cbn [fst] in E. subst k'.
    rewrite (A1 v Hin), (A2 v (Permutation_in _ HP Hin)). reflexivity.
  - rewrite (B1 Hn), B2; [reflexivity|].
    intros Hin. apply Hn.
    eapply Permutation_in; [apply Permutation_sym, Permutation_map, HP|].
    exact Hin.
Qed.

Lemma dict_of_uniform (l : list (coord * Image)) (w h : Z) :
  Forall (fun kv => size (snd kv) = (w, h)) l -> uniform_size (dict_of l) w h.
Proof.
  unfold dict_of. intros Hl.
  assert (H0 : uniform_size [] w h) by constructor.
  revert H0. generalize (@nil (coord * Image)) as d0.
  induction Hl as [|[k v] l Hv Hl IH]; intros d0 H0; [exact H0|].
  cbn [fold_left fst snd]. apply IH. now apply dict_set_uniform.
Qed.

(** C8.  Two insertion orders of the same entries, with distinct keys and
    tiles of one pixel size, give dictionaries that [stitch_tiles] maps to
    the same result: the same canvas, pixel for pixel. *)
Theorem stitch_tiles_order_independent (l1 l2 : list (coord * Image))
  (x_range y_range : Z * Z) (w h : Z) :
  Permutation l1 l2 -> NoDup (map fst l1) ->
  Forall (fun kv => size (snd kv) = (w, h)) l1 ->
  stitch_tiles (dict_of l1) x_range y_range
  = stitch_tiles (dict_of l2) x_range y_range.
Proof.
  intros HP ND Hu.
  apply (stitch_tiles_ext _ _ _ _ w h).
  - intros k. now apply dict_of_permutation.
  - now apply dict_of_uniform.
  - apply dict_of_uniform.
    eapply Permutation_Forall; [exact HP | exact Hu].
Qed.

(** Two tiles arriving in either order. *)
Lemma stitch_tiles_order_independent_witness :
  stitch_tiles
    (dict_of [((5, 10), solid_tile (200, 30, 30)); ((6, 10), gradient_tile)])
    (5, 6) (10, 10)
  = stitch_tiles
      (dict_of [((6, 10), gradient_tile); ((5, 10), solid_tile (200, 30, 30))])
      (5, 6) (10, 10).
Proof.
  apply (stitch_tiles_order_independent _ _ _ _ 256 256).
  - apply perm_swap.
  - repeat constructor; cbn; intuition discriminate.
  - repeat constructor.
Defined.

(** Without the uniform size the order does matter: the canvas is sized
    from the tile inserted first. *)
Remark stitch_tiles_sample_is_first_inserted :
  exists a b,
    stitch_tiles
      (dict_of [((5, 10), solid_tile (200, 30, 30)); ((6, 10), wide_tile)])
      (5, 6) (10, 10) = Ok (Some a) /\
    stitch_tiles
      (dict_of [((6, 10), wide_tile); ((5, 10), solid_tile (200, 30, 30))])
      (5, 6) (10, 10) = Ok (Some b) /\
    size a = (512, 256) /\ size b = (1024, 256).
Proof.
  eexists _, _. split; [reflexivity|]. split; [reflexivity|].
  split; reflexivity.
Qed.

(** ** The fetcher *)

Section Fetching.

Variables (H : Http) (zoom : Z) (base_url : string).

Let task := download_single_tile H zoom base_url.

Lemma download_single_tile_key (c k : coord) (t : Image) :
  task c = Ok (Some (k, t)) -> k = c.
Proof.
  unfold task, download_single_tile. destruct c as [x y].
  destruct (download_tile H x y zoom base_url) as [[img|]|e]; cbn [bind];
    intros E; inversion E; reflexivity.
Qed.

Lemma task_cases (c : coord) :
  (task_succeeded H zoom base_url c = true /\
   task_failed H zoom base_url c = false /\
   task_raised H zoom base_url c = false /\
   exists t, task c = Ok (Some (c, t))) \/
  (task_succeeded H zoom base_url c = false /\
   task_failed H zoom base_url c = true /\
   task_raised H zoom base_url c = false /\
   task c = Ok None) \/
  (task_succeeded H zoom base_url c = false /\
   task_failed H zoom base_url c = false /\
   task_raised H zoom base_url c = true /\
   exists e, task c = Raise e).
Proof.
  unfold task_succeeded, task_failed, task_raised.
  destruct (download_single_tile H zoom base_url c) as [[[k t]|]|e] eqn:E.
  - left. repeat split. exists t.
    apply download_single_tile_key in E as Hk. subst k. exact E.
  - right; left. repeat split. exact E.
  - right; right. repeat split. exists e. exact E.
Qed.

Lemma collect_keys (order : list coord) (d0 d : tiles) (k : coord) :
  collect (map task order) d0 = Ok d ->
  In k (dict_keys d) -> In k (dict_keys d0) \/ In k order.
Proof.
  revert d0. induction order as [|c order IH]; intros d0 Hc Hk.
  - inversion Hc; subst. now left.
  - cbn [map collect] in Hc.
    destruct (task c) as [[[k' t]|]|e] eqn:E.
    + apply download_single_tile_key in E. subst k'.
      destruct (IH _ Hc Hk) as [Hin|Hin]; [|right; now right].
      apply dict_set_keys in Hin. destruct Hin as [->|Hin].
      * right; now left.
      * now left.
    + destruct (IH _ Hc Hk); [now left | right; now right].
    + discriminate.
Qed.

Lemma collect_no_raise (order : list coord) (d0 : tiles) :
  NoDup order ->
  (forall c, In c order -> task_raised H zoom base_url c = false) ->
  (forall c, In c order -> ~ In c (dict_keys d0)) ->
  collect (map task order) d0 = Ok (d0 ++ fetched H zoom base_url order).
Proof.
  revert d0. induction order as [|c order IH]; intros d0 ND Hr Hf.
  - cbn. rewrite app_nil_r. reflexivity.
  - inversion ND as [|? ? Hc ND']; subst.
    cbn [map collect fetched flat_map]. fold (fetched H zoom base_url order).
    destruct (task_cases c) as [(_ & _ & _ & t & E)|[(_ & _ & _ & E)|(_ & _ & R & _)]].
    + fold task. rewrite E.
      rewrite dict_set_fresh by (apply Hf; now left).
      rewrite IH; auto.
      * rewrite <- app_assoc. reflexivity.
      * intros c' Hin. apply Hr. now right.
      * intros c' Hin. unfold dict_keys. rewrite map_app, in_app_iff.
        cbn. intros [Hk|[Hk|[]]].
        -- apply (Hf c'); [now right | exact Hk].
        -- subst c'. contradiction.
    + fold task. rewrite E. cbn [app]. apply IH; auto.
      * intros c' Hin. apply Hr. now right.
      * intros c' Hin. apply Hf. now right.
    + rewrite Hr in R by now left. discriminate.
Qed.

Lemma collect_raise (order : list coord) (d0 : tiles) (c : coord) :
  In c order -> task_raised H zoom base_url c = true ->
  exists e, collect (map task order) d0 = Raise e.
Proof.
  revert d0. induction order as [|c' order IH]; intros d0 Hin R; [easy|].
  cbn [map collect].
  destruct (task c') as [[[k t]|]|e] eqn:E.
  - destruct Hin as [->|Hin]; [|now apply IH].
    unfold task_raised in R. fold task in R. rewrite E in R. discriminate.
  - destruct Hin as [->|Hin]; [|now apply IH].
    unfold task_raised in R. fold task in R. rewrite E in R. discriminate.
  - exists e. reflexivity.
Qed.

Lemma fetched_keys (order : list coord) :
  dict_keys (fetched H zoom base_url order)
  = filter (task_succeeded H zoom base_url) order.
Proof.
  unfold dict_keys, fetched.
  induction order as [|c order IH]; [reflexivity|].
  cbn [flat_map filter]. rewrite map_app, IH.
  destruct (task_cases c) as [(S & _ & _ & t & E)|[(S & _ & _ & E)|(S & _ & _ & e & E)]];
    fold task; rewrite E, S; reflexivity.
Qed.

Lemma outcomes_partition (order : list coord) :
  (forall c, In c order -> task_raised H zoom base_url c = false) ->
  (List.length (filter (task_succeeded H zoom base_url) order)
   + List.length (filter (task_failed H zoom base_url) order))%nat
  = List.length order.
Proof.
  induction order as [|c order IH]; intros Hr; [reflexivity|].
  cbn [filter List.length].
  specialize (IH (fun c' Hin => Hr c' (or_intror Hin))).
  destruct (task_cases c) as [(S & F & _)|[(S & F & _)|(_ & _ & R & _)]].
  - rewrite S, F. cbn [List.length]. lia.
  - rewrite S, F. cbn [List.length]. lia.
  - rewrite Hr in R by now left. discriminate.
Qed.

End Fetching.

Lemma Permutation_filter_length {A : Type} (f : A -> bool) (l l' : list A) :
  Permutation l l' -> List.length (filter f l) = List.length (filter f l').
Proof.
  induction 1 as [|a l l' HP IH|a b l|l l' l'' HP1 IH1 HP2 IH2];
    cbn [filter].
  - reflexivity.
  - destruct (f a); cbn [List.length]; congruence.
  - destruct (f a), (f b); reflexivity.
  - congruence.
Qed.

(** C10.  Every key of a dictionary [download_tiles_parallel] returns is an
    address of the requested rectangle. *)
Theorem download_tiles_parallel_keys_in_rectangle (H : Http)
  (x_start x_end y_start y_end zoom : Z) (base_url : string) (max_workers : Z)
  (d : tiles) :
  download_tiles_parallel H x_start x_end y_start y_end zoom base_url
    max_workers (Ok d) ->
  forall x y,
    In (x, y) (dict_keys d) ->
    x_start <= x <= x_end /\ y_start <= y <= y_end.
Proof.
  intros (order & HP & Hrun) x y Hk.
  unfold download_tiles_in_order in Hrun.
  destruct (max_workers <=? 0); [discriminate|].
  destruct (collect_keys _ _ _ _ _ _ _ Hrun Hk) as [[]|Hin].
  apply all_coords_In. eapply Permutation_in; eassumption.
Qed.

(** Tiles 5..6 by 10..11 at zoom 15 against the tile server double, the
    futures completing in reverse order of submission: the two tiles it has
    come back, and both lie in the rectangle. *)
Lemma download_tiles_parallel_keys_in_rectangle_witness :
  download_tiles_parallel tile_server 5 6 10 11 15 base_url_superres 10
    (Ok [((6, 11), gradient_tile); ((5, 10), solid_tile (200, 30, 30))]) /\
  Forall (fun k => 5 <= fst k <= 6 /\ 10 <= snd k <= 11)
    (dict_keys [((6, 11), gradient_tile); ((5, 10), solid_tile (200, 30, 30))]).
Proof.
  assert (Hrun :
    download_tiles_parallel tile_server 5 6 10 11 15 base_url_superres 10
      (Ok [((6, 11), gradient_tile); ((5, 10), solid_tile (200, 30, 30))])).
  { exists (rev (all_coords 5 6 10 11)). split.
    - apply Permutation_sym, Permutation_rev.
    - vm_compute. reflexivity. }
  split; [exact Hrun|].
  apply Forall_forall. intros [x y] Hk.
  exact (download_tiles_parallel_keys_in_rectangle _ _ _ _ _ _ _ _ _ Hrun
           x y Hk).
Defined.

Lemma scheduled_count (x_start x_end y_start y_end : Z) :
  x_start <= x_end -> y_start <= y_end ->
  scheduled x_start x_end y_start y_end
  = (x_end - x_start + 1) * (y_end - y_start + 1).
Proof.
  intros Hx Hy. unfold scheduled. rewrite all_coords_length.
  rewrite !Z.max_r by lia. reflexivity.
Qed.

Lemma download_tiles_in_order_no_raise (H : Http)
  (x_start x_end y_start y_end zoom : Z) (base_url : string) (max_workers : Z)
  (order : list coord) :
  0 < max_workers ->
  Permutation order (all_coords x_start x_end y_start y_end) ->
  (forall c, In c (all_coords x_start x_end y_start y_end) ->
             task_raised H zoom base_url c = false) ->
  download_tiles_in_order H order zoom base_url max_workers
  = Ok (fetched H zoom base_url order) /\
  Z.of_nat (List.length (fetched H zoom base_url order))
  = scheduled x_start x_end y_start y_end
    - failures H x_start x_end y_start y_end zoom base_url.
Proof.
  intros Hw HP Hr.
  assert (Hr' : forall c, In c order -> task_raised H zoom base_url c = false)
    by (intros c Hin; apply Hr; eapply Permutation_in; eassumption).
  assert (ND : NoDup order)
    by (eapply Permutation_NoDup;
        [apply Permutation_sym, HP | apply all_coords_NoDup]).
  split.
  - unfold download_tiles_in_order.
    replace (max_workers <=? 0) with false by (symmetry; apply Z.leb_gt; lia).
    rewrite collect_no_raise; auto.
  - unfold scheduled, failures.
    rewrite <- (Permutation_length HP).
    rewrite <- (Permutation_filter_length _ _ _ HP).
    rewrite <- (outcomes_partition H zoom base_url order Hr').
    rewrite <- (length_map fst (fetched H zoom base_url order)).
    fold (dict_keys (fetched H zoom base_url order)).
    rewrite fetched_keys. lia.
Qed.

(** C2, as amended.  Over an ordered rectangle and a pool of at least one
    worker, [download_tiles_parallel] submits
    (x_end - x_start + 1) * (y_end - y_start + 1) tasks and has an outcome.
    When no task raises, every outcome is a dictionary: it holds exactly the
    addresses whose fetch was answered 200 and decoded, so as many entries
    as tasks submitted less the tasks answered otherwise, and it is empty
    when every answer is a non-200 one.  When a task raises (the transport
    fails, or a 200 body does not decode), every outcome is that of raising. *)
Theorem download_tiles_parallel_partial_failure (H : Http)
  (x_start x_end y_start y_end zoom : Z) (base_url : string)
  (max_workers : Z) :
  x_start <= x_end -> y_start <= y_end -> 0 < max_workers ->
  scheduled x_start x_end y_start y_end
  = (x_end - x_start + 1) * (y_end - y_start + 1) /\
  (exists r,
     download_tiles_parallel H x_start x_end y_start y_end zoom base_url
       max_workers r) /\
  (forall r,
     download_tiles_parallel H x_start x_end y_start y_end zoom base_url
       max_workers r ->
     ((forall c, In c (all_coords x_start x_end y_start y_end) ->
                 task_raised H zoom base_url c = false) ->
      exists d,
        r = Ok d /\
        Z.of_nat (List.length d)
        = scheduled x_start x_end y_start y_end
          - failures H x_start x_end y_start y_end zoom base_url /\
        (forall k,
           In k (dict_keys d) <->
           In k (all_coords x_start x_end y_start y_end) /\
           task_succeeded H zoom base_url k = true) /\
        ((forall c, In c (all_coords x_start x_end y_start y_end) ->
                    task_failed H zoom base_url c = true) -> d = [])) /\
     ((exists c, In c (all_coords x_start x_end y_start y_end) /\
                 task_raised H zoom base_url c = true) ->
      exists e, r = Raise e)).
Proof.
  intros Hx Hy Hw.
  split; [now apply scheduled_count|].
  split.
  { eexists. exists (all_coords x_start x_end y_start y_end).
    split; [apply Permutation_refl | reflexivity]. }
  intros r (order & HP & Hrun). split.
  - intros Hr.
    destruct (download_tiles_in_order_no_raise H x_start x_end y_start y_end
                zoom base_url max_workers order Hw HP Hr) as [Hok Hlen].
    exists (fetched H zoom base_url order).
    split; [rewrite <- Hrun; exact Hok|]. split; [exact Hlen|]. split.
    + intros k. rewrite fetched_keys, filter_In.
      split; intros [Hin Hs]; (split; [|exact Hs]).
      * eapply Permutation_in; eassumption.
      * eapply Permutation_in; [apply Permutation_sym|]; eassumption.
    + intros Hf.
      assert (E : dict_keys (fetched H zoom base_url order) = []).
      { rewrite fetched_keys.
        destruct (filter _ order) as [|c l] eqn:F; [reflexivity|].
        assert (Hc : In c (filter (task_succeeded H zoom base_url) order))
          by (rewrite F; now left).
        apply filter_In in Hc. destruct Hc as [Hin Hs].
        apply (Permutation_in _ HP), Hf in Hin.
        destruct (task_cases H zoom base_url c)
          as [(_ & F' & _)|[(S' & _)|(S' & _)]]; congruence. }
      unfold dict_keys in E. now apply map_eq_nil in E.
  - intros (c & Hin & R). subst r.
    unfold download_tiles_in_order.
    replace (max_workers <=? 0) with false by (symmetry; apply Z.leb_gt; lia).
    apply (collect_raise H zoom base_url order [] c); [|exact R].
    eapply Permutation_in; [apply Permutation_sym|]; eassumption.
Qed.

(** Tiles 5..6 by 10..11 at zoom 15 against the tile server double: four
    tasks, two answered 404, and every outcome holds two tiles. *)
Lemma download_tiles_parallel_partial_failure_witness :
  scheduled 5 6 10 11 = 4 /\
  failures tile_server 5 6 10 11 15 base_url_superres = 2 /\
  exists r d,
    download_tiles_parallel tile_server 5 6 10 11 15 base_url_superres 10 r /\
    r = Ok d /\ Z.of_nat (List.length d) = 2.
Proof.
  destruct (download_tiles_parallel_partial_failure tile_server 5 6 10 11 15
              base_url_superres 10) as (HN & (r & Hr) & Hall);
    [lia | lia | lia |].
  split; [exact HN|]. split; [vm_compute; reflexivity|].
  destruct (proj1 (Hall r Hr)) as (d & Hd & Hlen & _).
  - intros [x y] Hin. apply all_coords_In in Hin.
    assert (Hxy : (x = 5 \/ x = 6) /\ (y = 10 \/ y = 11)) by lia.
    destruct Hxy as [[-> | ->] [-> | ->]]; vm_compute; reflexivity.
  - exists r, d. split; [exact Hr|]. split; [exact Hd|].
    rewrite Hlen. vm_compute. reflexivity.
Defined.

(** C2, as stated, fails: a fetch answered 200 with a body that is no image
    is a failed fetch, and the call raises instead of returning the empty
    dictionary. *)
Lemma download_tiles_parallel_undecodable :
  scheduled 5 5 10 10 = 1 /\
  task_succeeded html_server 15 base_url_superres (5, 10) = false /\
  download_tiles_parallel html_server 5 5 10 10 15 base_url_superres 10
    (Raise UnidentifiedImageError) /\
  ~ (exists d,
       download_tiles_parallel html_server 5 5 10 10 15 base_url_superres 10
         (Ok d)).
Proof.
  split; [vm_compute; reflexivity|].
  split; [vm_compute; reflexivity|].
  split.
  - exists [(5, 10)]. split; [apply Permutation_refl | vm_compute; reflexivity].
  - intros (d & order & HP & Hrun).
    change (all_coords 5 5 10 10) with [(5, 10)] in HP.
    apply Permutation_sym, Permutation_length_1_inv in HP. subst order.
    vm_compute in Hrun. discriminate.
Qed.

(** * Further properties of the code *)

(** ** The resolver *)

Ltac bind_pair H :=
  let a := fresh "a" in
  let E := fresh "E" in
  apply bind_Ok_inv in H; destruct H as (a & E & H);
  destruct a as [? ?]; cbn beta iota in H.

Lemma get_tile_bounds_Ok_inv (P : Pyproj) (M : Libm)
  (ul_x ul_y lr_x lr_y : float) (zoom utm_zone : Z) (r : Z * Z * Z * Z) :
  get_tile_bounds_for_utm_region P M ul_x ul_y lr_x lr_y zoom utm_zone = Ok r ->
  exists lat_ul lon_ul lat_lr lon_lr x_ul y_ul x_lr y_lr,
    utm_to_latlon P ul_x ul_y utm_zone true = Ok (lat_ul, lon_ul) /\
    utm_to_latlon P lr_x lr_y utm_zone true = Ok (lat_lr, lon_lr) /\
    lat_lon_to_tile_indices M lat_ul lon_ul zoom = Ok (x_ul, y_ul) /\
    lat_lon_to_tile_indices M lat_lr lon_lr zoom = Ok (x_lr, y_lr) /\
    r = (Z.min x_ul x_lr, Z.max x_ul x_lr, Z.min y_ul y_lr, Z.max y_ul y_lr).
Proof.
  unfold get_tile_bounds_for_utm_region. intros H.
  bind_pair H. bind_pair H. bind_pair H. bind_pair H.
  inversion H; subst.
  eexists _, _, _, _, _, _, _, _. repeat split; eassumption.
Qed.

Lemma get_tile_bounds_Ok (P : Pyproj) (M : Libm)
  (ul_x ul_y lr_x lr_y : float) (zoom utm_zone : Z)
  (lat_ul lon_ul lat_lr lon_lr : float) (x_ul y_ul x_lr y_lr : Z) :
  utm_to_latlon P ul_x ul_y utm_zone true = Ok (lat_ul, lon_ul) ->
  utm_to_latlon P lr_x lr_y utm_zone true = Ok (lat_lr, lon_lr) ->
  lat_lon_to_tile_indices M lat_ul lon_ul zoom = Ok (x_ul, y_ul) ->
  lat_lon_to_tile_indices M lat_lr lon_lr zoom = Ok (x_lr, y_lr) ->
  get_tile_bounds_for_utm_region P M ul_x ul_y lr_x lr_y zoom utm_zone
  = Ok (Z.min x_ul x_lr, Z.max x_ul x_lr, Z.min y_ul y_lr, Z.max y_ul y_lr).
Proof.
  intros Hul Hlr Tul Tlr. unfold get_tile_bounds_for_utm_region.
  rewrite Hul; cbn [bind]. rewrite Hlr; cbn [bind].
  rewrite Tul; cbn [bind]. rewrite Tlr; reflexivity.
Qed.

(** X1.  The rectangle does not depend on which corner is passed first:
    whenever [get_tile_bounds_for_utm_region] returns a rectangle, the call
    with the two corners exchanged returns the same one. *)
Theorem get_tile_bounds_corners_exchanged (P : Pyproj) (M : Libm)
  (ul_x ul_y lr_x lr_y : float) (zoom utm_zone : Z) (r : Z * Z * Z * Z) :
  get_tile_bounds_for_utm_region P M ul_x ul_y lr_x lr_y zoom utm_zone = Ok r ->
  get_tile_bounds_for_utm_region P M lr_x lr_y ul_x ul_y zoom utm_zone = Ok r.
Proof.
  intros H. apply get_tile_bounds_Ok_inv in H.
  destruct H as (lat_ul & lon_ul & lat_lr & lon_lr & x_ul & y_ul & x_lr & y_lr
                 & Hul & Hlr & Tul & Tlr & ->).
  rewrite (get_tile_bounds_Ok _ _ _ _ _ _ _ _ _ _ _ _ _ _ _ _ Hlr Hul Tlr Tul).
  rewrite (Z.min_comm x_lr), (Z.max_comm x_lr).
  rewrite (Z.min_comm y_lr), (Z.max_comm y_lr). reflexivity.
Qed.

Lemma get_tile_bounds_corners_exchanged_witness :
  get_tile_bounds_for_utm_region equator_pyproj equator_libm
    500000 0 833978.557 0 15 31 = Ok (16657, 16930, 16384, 16384).
Proof.
  apply (get_tile_bounds_corners_exchanged equator_pyproj equator_libm
           833978.557 0 500000 0 15 31).
  vm_compute. reflexivity.
Defined.




(** X3.  An error of pyproj is not caught: when [Transformer.from_crs]
    refuses the CRS of the zone, [get_tile_bounds_for_utm_region] raises that
    error, whatever the corners, the zoom and the math library. *)
Theorem get_tile_bounds_crs_error (P : Pyproj) (M : Libm)
  (ul_x ul_y lr_x lr_y : float) (zoom utm_zone : Z) (e : exn) :
  from_crs P (utm_crs utm_zone) "EPSG:4326"%string true = Raise e ->
  get_tile_bounds_for_utm_region P M ul_x ul_y lr_x lr_y zoom utm_zone
  = Raise e.
Proof.
  intros H. unfold get_tile_bounds_for_utm_region, utm_to_latlon.
  fold (utm_crs utm_zone). rewrite H. reflexivity.
Qed.

Lemma get_tile_bounds_crs_error_witness :
  get_tile_bounds_for_utm_region equator_pyproj equator_libm
    500000 0 833978.557 0 15 61 = Raise CRSError.
Proof.
  apply get_tile_bounds_crs_error. vm_compute. reflexivity.
Defined.

(** ** Checking a range of ints by running *)

Lemma py_range_forallb (f : Z -> bool) (a b : Z) :
  forallb f (py_range a b) = true -> forall z, a <= z < b -> f z = true.
Proof.
  intros Hf z Hz. rewrite forallb_forall in Hf.
  apply Hf, py_range_In, Hz.
Qed.

Lemma raises_eq {A : Type} (e : exn) (r : result A) :
  raises e r = true -> r = Raise e.
Proof. destruct r as [a|e']; [discriminate|]. destruct e', e; easy. Qed.

(** ** Longitudes that are no numbers *)

Lemma x_tile_of_infinite_longitude (zoom : Z) :
  0 <= zoom < 1024 ->
  (v <- x_scaled infinity zoom ;; py_int v) = Raise OverflowError /\
  (v <- x_scaled neg_infinity zoom ;; py_int v) = Raise OverflowError /\
  (v <- x_scaled nan zoom ;; py_int v) = Raise ValueError.
Proof.
  intros Hz.
  assert (Hall :
    forallb
      (fun z =>
         raises OverflowError (v <- x_scaled infinity z ;; py_int v)
         && raises OverflowError (v <- x_scaled neg_infinity z ;; py_int v)
         && raises ValueError (v <- x_scaled nan z ;; py_int v))
      (py_range 0 1024) = true)
    by (vm_compute; reflexivity).
  pose proof (py_range_forallb _ _ _ Hall zoom Hz) as Hzoom.
  cbv beta in Hzoom. rewrite !andb_true_iff in Hzoom.
  destruct Hzoom as [[H1 H2] H3].
  repeat split; now apply raises_eq.
Qed.

(** X4.  A longitude that is an infinity or a NaN is not screened: at every
    zoom level from 0 to 1023 [lat_lon_to_tile_indices] raises
    [OverflowError] on an infinite longitude and [ValueError] on a NaN, out
    of [int], before the latitude is looked at. *)
Theorem lat_lon_to_tile_indices_longitude_not_a_number (M : Libm)
  (lat : float) (zoom : Z) :
  0 <= zoom < 1024 ->
  lat_lon_to_tile_indices M lat infinity zoom = Raise OverflowError /\
  lat_lon_to_tile_indices M lat neg_infinity zoom = Raise OverflowError /\
  lat_lon_to_tile_indices M lat nan zoom = Raise ValueError.
Proof.
  intros Hz.
  destruct (x_tile_of_infinite_longitude zoom Hz) as (H1 & H2 & H3).
  rewrite !lat_lon_to_tile_indices_split, H1, H2, H3. repeat split.
Qed.

Lemma lat_lon_to_tile_indices_longitude_not_a_number_witness :
  lat_lon_to_tile_indices equator_libm 0 infinity 15 = Raise OverflowError /\
  lat_lon_to_tile_indices equator_libm 0 neg_infinity 15 = Raise OverflowError /\
  lat_lon_to_tile_indices equator_libm 0 nan 15 = Raise ValueError.
Proof.
  apply (lat_lon_to_tile_indices_longitude_not_a_number equator_libm 0 15).
  lia.
Defined.

(** X5.  When pyproj hands back an infinite longitude for the first corner
    (and converts the second corner at all), the failure surfaces in
    [get_tile_bounds_for_utm_region] as the [OverflowError] of [int]. *)
Theorem get_tile_bounds_infinite_longitude (P : Pyproj) (M : Libm)
  (ul_x ul_y lr_x lr_y : float) (zoom utm_zone : Z)
  (lat_ul lat_lr lon_lr : float) :
  0 <= zoom < 1024 ->
  utm_to_latlon P ul_x ul_y utm_zone true = Ok (lat_ul, infinity) ->
  utm_to_latlon P lr_x lr_y utm_zone true = Ok (lat_lr, lon_lr) ->
  get_tile_bounds_for_utm_region P M ul_x ul_y lr_x lr_y zoom utm_zone
  = Raise OverflowError.
Proof.
  intros Hz Hul Hlr. unfold get_tile_bounds_for_utm_region.
  rewrite Hul; cbn [bind]. rewrite Hlr; cbn [bind].
  destruct (x_tile_of_infinite_longitude zoom Hz) as (Hx & _).
  rewrite lat_lon_to_tile_indices_split, Hx. reflexivity.
Qed.

Lemma get_tile_bounds_infinite_longitude_witness :
  get_tile_bounds_for_utm_region unprojectable_pyproj equator_libm
    605020 5546440 609240 5542220 15 32 = Raise OverflowError.
Proof.
  apply (get_tile_bounds_infinite_longitude unprojectable_pyproj equator_libm
           605020 5546440 609240 5542220 15 32 infinity infinity infinity);
    [lia | reflexivity | reflexivity].
Defined.

(** ** CRS codes *)

Lemma utm_to_latlon_project_with (P : Pyproj) (x y : float) (zone : Z)
  (northern : bool) :
  utm_to_latlon P x y zone northern = project_with P (utm_crs zone) x y.
Proof. reflexivity. Qed.

Lemma utm_crs_two_digits (zone : Z) :
  10 <= zone <= 60 -> utm_crs zone = ("EPSG:" ++ str_int (32600 + zone))%string.
Proof.
  intros Hz. apply String.eqb_eq.
  apply (py_range_forallb
           (fun z => (utm_crs z =? "EPSG:" ++ str_int (32600 + z))%string)
           10 61); [vm_compute; reflexivity | lia].
Qed.

Lemma utm_crs_one_digit (zone : Z) :
  0 <= zone <= 9 -> utm_crs zone = ("EPSG:" ++ str_int (3260 + zone))%string.
Proof.
  intros Hz. apply String.eqb_eq.
  apply (py_range_forallb
           (fun z => (utm_crs z =? "EPSG:" ++ str_int (3260 + z))%string)
           0 10); [vm_compute; reflexivity | lia].
Qed.

(** X6.  The zone is formatted without padding.  For the zones 10 to 60
    [utm_to_latlon] projects with the EPSG code 32600 + zone, the northern
    UTM zone; for the zones 1 to 9 it projects with the four-digit code
    3260 + zone (zone 5: EPSG:3265), not with 32600 + zone. *)
Theorem utm_to_latlon_crs_code (P : Pyproj) (x y : float) (zone : Z)
  (northern : bool) :
  (10 <= zone <= 60 ->
   utm_to_latlon P x y zone northern
   = project_with P ("EPSG:" ++ str_int (32600 + zone))%string x y) /\
  (1 <= zone <= 9 ->
   utm_to_latlon P x y zone northern
   = project_with P ("EPSG:" ++ str_int (3260 + zone))%string x y /\
   ("EPSG:" ++ str_int (3260 + zone) <> "EPSG:" ++ str_int (32600 + zone))%string).
Proof.
  rewrite utm_to_latlon_project_with. split; intros Hz.
  - rewrite utm_crs_two_digits by lia. reflexivity.
  - rewrite utm_crs_one_digit by lia. split; [reflexivity|].
    apply String.eqb_neq.
    assert (Hall :
      forallb
        (fun z =>
           negb ("EPSG:" ++ str_int (3260 + z)
                 =? "EPSG:" ++ str_int (32600 + z))%string)
        (py_range 1 10) = true) by (vm_compute; reflexivity).
    pose proof (py_range_forallb _ _ _ Hall zone ltac:(lia)) as Hn.
    cbv beta in Hn. now apply negb_true_iff in Hn.
Qed.

Lemma utm_to_latlon_crs_code_witness :
  utm_to_latlon equator_pyproj 500000 0 31 true
  = project_with equator_pyproj "EPSG:32631" 500000 0 /\
  utm_to_latlon equator_pyproj 500000 0 5 true
  = project_with equator_pyproj "EPSG:3265" 500000 0.
Proof.
  split.
  - apply (proj1 (utm_to_latlon_crs_code equator_pyproj 500000 0 31 true)).
    lia.
  - apply (proj2 (utm_to_latlon_crs_code equator_pyproj 500000 0 5 true)).
    lia.
Defined.

(** X7.  From an EPSG code to a zone and back to a CRS: a northern code
    32610..32660 comes back as itself, a southern code 32710..32760 comes
    back as the northern code of the same zone (100 less), and the zone of
    any code is between 1 and 60. *)
Theorem zone_from_epsg_then_crs (epsg : Z) :
  (forall zone, zone_from_epsg epsg = Some zone -> 1 <= zone <= 60) /\
  (32610 <= epsg <= 32660 ->
   exists zone,
     zone_from_epsg epsg = Some zone /\
     utm_crs zone = ("EPSG:" ++ str_int epsg)%string) /\
  (32710 <= epsg <= 32760 ->
   exists zone,
     zone_from_epsg epsg = Some zone /\
     utm_crs zone = ("EPSG:" ++ str_int (epsg - 100))%string).
Proof.
  unfold zone_from_epsg. split; [|split].
  - intros zone.
    destruct ((32601 <=? epsg) && (epsg <=? 32660)) eqn:N.
    + intros [= <-]. apply andb_true_iff in N. lia.
    + destruct ((32701 <=? epsg) && (epsg <=? 32760)) eqn:S; [|discriminate].
      intros [= <-]. apply andb_true_iff in S. lia.
  - intros He. exists (epsg - 32600).
    replace ((32601 <=? epsg) && (epsg <=? 32660)) with true
      by (symmetry; apply andb_true_iff; lia).
    split; [reflexivity|].
    rewrite utm_crs_two_digits by lia. do 2 f_equal. lia.
  - intros He. exists (epsg - 32700).
    replace ((32601 <=? epsg) && (epsg <=? 32660)) with false
      by (symmetry; apply andb_false_iff; lia).
    replace ((32701 <=? epsg) && (epsg <=? 32760)) with true
      by (symmetry; apply andb_true_iff; lia).
    split; [reflexivity|].
    rewrite utm_crs_two_digits by lia. do 2 f_equal. lia.
Qed.

Lemma zone_from_epsg_then_crs_witness :
  exists zone,
    zone_from_epsg 32732 = Some zone /\ utm_crs zone = "EPSG:32632"%string.
Proof.
  apply (proj2 (proj2 (zone_from_epsg_then_crs 32732))). lia.
Defined.

(** ** Tile URLs *)

Lemma append_inv_head (b s t : string) :
  (b ++ s = b ++ t)%string -> s = t.
Proof.
  induction b as [|a b IH]; cbn; intros E; [exact E|].
  inversion E. auto.
Qed.

Lemma append_split_at (c : Ascii.ascii) (s1 s2 r1 r2 : string) :
  ~ In c (list_ascii_of_string s1) -> ~ In c (list_ascii_of_string s2) ->
  (s1 ++ String c r1 = s2 ++ String c r2)%string ->
  s1 = s2 /\ r1 = r2.
Proof.
  revert s2. induction s1 as [|a s1 IH]; intros [|a' s2] H1 H2 E; cbn in *.
  - inversion E. auto.
  - inversion E; subst. tauto.
  - inversion E; subst. tauto.
  - inversion E; subst.
    destruct (IH s2) as [-> ->]; auto.
Qed.

Lemma string_of_uint_digits (d : Decimal.uint) (a : Ascii.ascii) :
  In a (list_ascii_of_string (NilEmpty.string_of_uint d)) ->
  sign_or_digit a = true.
Proof.
  induction d; cbn [NilEmpty.string_of_uint list_ascii_of_string In];
    intros Hin; try contradiction;
    (destruct Hin as [<-|Hin]; [reflexivity | auto]).
Qed.

Lemma str_int_chars (z : Z) (a : Ascii.ascii) :
  In a (list_ascii_of_string (str_int z)) -> sign_or_digit a = true.
Proof.
  unfold str_int, NilZero.string_of_int, NilZero.string_of_uint.
  destruct (Z.to_int z) as [d|d].
  - destruct d; try apply string_of_uint_digits.
    cbn. intros [<-|[]]. reflexivity.
  - cbn [list_ascii_of_string In]. intros [<-|Hin]; [reflexivity|].
    destruct d; try (revert Hin; apply string_of_uint_digits).
    cbn in Hin. destruct Hin as [<-|[]]. reflexivity.
Qed.

Lemma str_int_no_char (c : Ascii.ascii) (z : Z) :
  sign_or_digit c = false -> ~ In c (list_ascii_of_string (str_int z)).
Proof. intros Hc Hin. apply str_int_chars in Hin. congruence. Qed.

Lemma Z_to_int_proper (z : Z) :
  Z.to_int z <> Decimal.Pos Decimal.Nil /\
  Z.to_int z <> Decimal.Neg Decimal.Nil.
Proof.
  destruct z as [|p|p]; cbn; split; try discriminate;
    intros E; inversion E as [E'];
    now apply DecimalPos.Unsigned.to_uint_nonnil in E'.
Qed.

Lemma str_int_inj (z z' : Z) : str_int z = str_int z' -> z = z'.
Proof.
  unfold str_int. intros E.
  apply (f_equal NilZero.int_of_string) in E.
  destruct (Z_to_int_proper z) as [A B], (Z_to_int_proper z') as [A' B'].
  rewrite !NilZero.isi in E by assumption.
  inversion E as [E'].
  rewrite <- (DecimalZ.of_to z), <- (DecimalZ.of_to z'), E'. reflexivity.
Qed.

(** X8.  Under one base URL, two tile addresses have the same URL exactly
    when they are the same address: zoom, column and row can be read back
    from [{base_url}/{z}/{x}/{y}.webp].  (Characters 47 and 46 are the slash
    and the dot.) *)
Theorem tile_url_inj (base_url : string) (z x y z' x' y' : Z) :
  tile_url base_url z x y = tile_url base_url z' x' y' <->
  z = z' /\ x = x' /\ y = y'.
Proof.
  split; [|intros (-> & -> & ->); reflexivity].
  unfold tile_url. intros E.
  apply append_inv_head in E. cbn [String.append] in E.
  inversion E as [E1]. clear E.
  apply (append_split_at (Ascii.ascii_of_nat 47)) in E1;
    try (apply str_int_no_char; reflexivity).
  destruct E1 as [Ez E2]. cbn [String.append] in E2.
  apply (append_split_at (Ascii.ascii_of_nat 47)) in E2;
    try (apply str_int_no_char; reflexivity).
  destruct E2 as [Ex E3].
  change ".webp"%string with (String (Ascii.ascii_of_nat 46) "webp") in E3.
  apply (append_split_at (Ascii.ascii_of_nat 46)) in E3;
    try (apply str_int_no_char; reflexivity).
  destruct E3 as [Ey _].
  auto using str_int_inj.
Qed.

(** The addresses (1, 11) and (11, 1) at zoom 15 do not share a URL. *)
Lemma tile_url_inj_witness :
  (tile_url base_url_superres 15 1 11 =? tile_url base_url_superres 15 11 1)%string
  = false.
Proof.
  apply String.eqb_neq. intros E.
  apply (proj1 (tile_url_inj base_url_superres 15 1 11 15 11 1)) in E.
  lia.
Defined.

(** ** More on the fetcher *)

Section FetchedTiles.

Variables (H : Http) (zoom : Z) (base_url : string).

Lemma download_single_tile_Some (x y : Z) (k : coord) (t : Image) :
  download_single_tile H zoom base_url (x, y) = Ok (Some (k, t)) <->
  k = (x, y) /\ download_tile H x y zoom base_url = Ok (Some t).
Proof.
  unfold download_single_tile.
  destruct (download_tile H x y zoom base_url) as [[img|]|e]; cbn [bind];
    split.
  - intros E. inversion E. auto.
  - intros [-> E]. inversion E. reflexivity.
  - discriminate.
  - intros [_ E]. discriminate.
  - discriminate.
  - intros [_ E]. discriminate.
Qed.

Lemma collect_Ok_no_raise (order : list coord) (d0 d : tiles) :
  collect (map (download_single_tile H zoom base_url) order) d0 = Ok d ->
  forall c, In c order -> task_raised H zoom base_url c = false.
Proof.
  intros Hc c Hin.
  destruct (task_raised H zoom base_url c) eqn:R; [|reflexivity].
  destruct (collect_raise H zoom base_url order d0 c Hin R) as [e He].
  congruence.
Qed.

Lemma fetched_In (order : list coord) (k : coord) (t : Image) :
  In (k, t) (fetched H zoom base_url order) <->
  In k order /\ download_single_tile H zoom base_url k = Ok (Some (k, t)).
Proof.
  unfold fetched. rewrite in_flat_map. split.
  - intros (c & Hin & Hk).
    destruct (download_single_tile H zoom base_url c) as [[[k' t']|]|e] eqn:E;
      try contradiction.
    destruct Hk as [Hk|[]]. inversion Hk; subst.
    apply download_single_tile_key in E as Hc. subst. auto.
  - intros [Hin E]. exists k. split; [exact Hin|]. rewrite E. now left.
Qed.

Lemma fetched_NoDup (order : list coord) :
  NoDup order -> NoDup (dict_keys (fetched H zoom base_url order)).
Proof. intros ND. rewrite fetched_keys. now apply NoDup_filter. Qed.

Lemma fetched_permutation (order order' : list coord) :
  Permutation order order' ->
  Permutation (fetched H zoom base_url order) (fetched H zoom base_url order').
Proof. intros HP. unfold fetched. now apply Permutation_flat_map. Qed.

End FetchedTiles.

Lemma dict_get_In_iff (k : coord) (v : Image) (d : tiles) :
  NoDup (dict_keys d) -> (dict_get k d = Some v <-> In (k, v) d).
Proof.
  intros ND. split; [apply dict_get_In|].
  induction d as [|[k0 v0] d IH]; cbn [In dict_get]; [contradiction|].
  cbn [dict_keys map fst] in ND. inversion ND as [|? ? Hk ND']; subst.
  intros [E|Hin].
  - inversion E; subst. rewrite coord_eqb_refl. reflexivity.
  - destruct (coord_eqb k k0) eqn:E; [|now apply IH].
    apply coord_eqb_eq in E. subst k0. exfalso. apply Hk.
    apply in_map_iff. exists (k, v). auto.
Qed.

(** What a run that returns has returned: the tiles its tasks handed back,
    in the order of completion. *)
Lemma download_tiles_in_order_Ok_inv (H : Http)
  (x_start x_end y_start y_end zoom : Z) (base_url : string) (max_workers : Z)
  (completed : list coord) (d : tiles) :
  Permutation completed (all_coords x_start x_end y_start y_end) ->
  download_tiles_in_order H completed zoom base_url max_workers = Ok d ->
  d = fetched H zoom base_url completed /\ NoDup completed /\
  forall c, In c completed -> task_raised H zoom base_url c = false.
Proof.
  intros HP Hrun. unfold download_tiles_in_order in Hrun.
  destruct (max_workers <=? 0); [discriminate|].
  assert (ND : NoDup completed)
    by (eapply Permutation_NoDup;
        [apply Permutation_sym, HP | apply all_coords_NoDup]).
  pose proof (collect_Ok_no_raise H zoom base_url _ _ _ Hrun) as Hr.
  rewrite collect_no_raise in Hrun by auto.
  inversion Hrun. auto.
Qed.

(** X9.  Insert and look up: in a dictionary [download_tiles_parallel]
    returns, the address [(x, y)] holds the tile [t] exactly when [(x, y)] is
    in the rectangle and [download_tile] returned [t] for it. *)
Theorem download_tiles_parallel_lookup (H : Http)
  (x_start x_end y_start y_end zoom : Z) (base_url : string) (max_workers : Z)
  (d : tiles) :
  download_tiles_parallel H x_start x_end y_start y_end zoom base_url
    max_workers (Ok d) ->
  forall x y t,
    dict_get (x, y) d = Some t <->
    (x_start <= x <= x_end /\ y_start <= y <= y_end) /\
    download_tile H x y zoom base_url = Ok (Some t).
Proof.
  intros (order & HP & Hrun) x y t.
  destruct (download_tiles_in_order_Ok_inv _ _ _ _ _ _ _ _ _ _ HP Hrun)
    as (-> & ND & _).
  rewrite dict_get_In_iff by now apply fetched_NoDup.
  rewrite fetched_In, download_single_tile_Some, <- all_coords_In.
  split.
  - intros (Hin & _ & Ht). split; [|exact Ht].
    eapply Permutation_in; eassumption.
  - intros (Hin & Ht). split; [|auto].
    eapply Permutation_in; [apply Permutation_sym|]; eassumption.
Qed.

Lemma download_tiles_parallel_lookup_witness :
  dict_get (5, 10)
    [((6, 11), gradient_tile); ((5, 10), solid_tile (200, 30, 30))]
  = Some (solid_tile (200, 30, 30)) <->
  (5 <= 5 <= 6 /\ 10 <= 10 <= 11) /\
  download_tile tile_server 5 10 15 base_url_superres
  = Ok (Some (solid_tile (200, 30, 30))).
Proof.
  apply (download_tiles_parallel_lookup tile_server 5 6 10 11 15
           base_url_superres 10).
  exists (rev (all_coords 5 6 10 11)). split.
  - apply Permutation_sym, Permutation_rev.
  - vm_compute. reflexivity.
Defined.

(** X10.  The order of completion is not seen in what is returned: two runs
    of [download_tiles_parallel] on the same arguments either both raise, or
    return dictionaries with the same entries, in some order, that answer
    every lookup alike. *)
Theorem download_tiles_parallel_any_order (H : Http)
  (x_start x_end y_start y_end zoom : Z) (base_url : string) (max_workers : Z)
  (r1 r2 : result tiles) :
  download_tiles_parallel H x_start x_end y_start y_end zoom base_url
    max_workers r1 ->
  download_tiles_parallel H x_start x_end y_start y_end zoom base_url
    max_workers r2 ->
  match r1, r2 with
  | Ok d1, Ok d2 =>
      Permutation d1 d2 /\ forall k, dict_get k d1 = dict_get k d2
  | Raise _, Raise _ => True
  | _, _ => False
  end.
Proof.
  intros (o1 & HP1 & Hr1) (o2 & HP2 & Hr2).
  assert (HP : Permutation o1 o2)
    by (eapply Permutation_trans; [exact HP1 | apply Permutation_sym, HP2]).
  assert (Hraise : forall o o' r r' d,
    Permutation o o' ->
    Permutation o (all_coords x_start x_end y_start y_end) ->
    download_tiles_in_order H o zoom base_url max_workers = r ->
    download_tiles_in_order H o' zoom base_url max_workers = r' ->
    r = Ok d -> exists d', r' = Ok d').
  { intros o o' r r' d Hoo Ho Hr Hr' ->.
    destruct (download_tiles_in_order_Ok_inv _ _ _ _ _ _ _ _ _ _ Ho Hr)
      as (_ & ND & Hnr).
    subst r'. unfold download_tiles_in_order in *.
    destruct (max_workers <=? 0); [discriminate|].
    rewrite collect_no_raise.
    - eauto.
    - eapply Permutation_NoDup; eassumption.
    - intros c Hin. apply Hnr.
      exact (Permutation_in _ (Permutation_sym Hoo) Hin).
    - auto. }
  destruct r1 as [d1|e1], r2 as [d2|e2]; try exact I.
  - destruct (download_tiles_in_order_Ok_inv _ _ _ _ _ _ _ _ _ _ HP1 Hr1)
      as (-> & ND1 & _).
    destruct (download_tiles_in_order_Ok_inv _ _ _ _ _ _ _ _ _ _ HP2 Hr2)
      as (-> & ND2 & _).
    pose proof (fetched_permutation H zoom base_url _ _ HP) as HPf.
    split; [exact HPf|].
    intros k.
    destruct (dict_get k (fetched H zoom base_url o1)) as [t|] eqn:G1.
    + symmetry. apply dict_get_In_iff; [now apply fetched_NoDup|].
      eapply Permutation_in; [exact HPf|].
      apply dict_get_In_iff in G1; [exact G1 | now apply fetched_NoDup].
    + destruct (dict_get k (fetched H zoom base_url o2)) as [t|] eqn:G2;
        [|reflexivity].
      apply dict_get_In_iff in G2; [|now apply fetched_NoDup].
      apply (Permutation_in _ (Permutation_sym HPf)) in G2.
      apply dict_get_In_iff in G2; [|now apply fetched_NoDup].
      congruence.
  - destruct (Hraise o1 o2 _ _ d1 HP HP1 Hr1 Hr2 eq_refl) as [d' Hd'].
    discriminate.
  - destruct (Hraise o2 o1 _ _ d2 (Permutation_sym HP) HP2 Hr2 Hr1 eq_refl)
      as [d' Hd']. discriminate.
Qed.

Lemma download_tiles_parallel_any_order_witness :
  Permutation
    [((5, 10), solid_tile (200, 30, 30)); ((6, 11), gradient_tile)]
    [((6, 11), gradient_tile); ((5, 10), solid_tile (200, 30, 30))] /\
  forall k,
    dict_get k [((5, 10), solid_tile (200, 30, 30)); ((6, 11), gradient_tile)]
    = dict_get k
        [((6, 11), gradient_tile); ((5, 10), solid_tile (200, 30, 30))].
Proof.
  apply (download_tiles_parallel_any_order tile_server 5 6 10 11 15
           base_url_superres 10 (Ok _) (Ok _)).
  - exists (all_coords 5 6 10 11). split.
    + apply Permutation_refl.
    + vm_compute. reflexivity.
  - exists (rev (all_coords 5 6 10 11)). split.
    + apply Permutation_sym, Permutation_rev.
    + vm_compute. reflexivity.
Defined.

Lemma all_coords_empty (x_start x_end y_start y_end : Z) :
  x_end < x_start \/ y_end < y_start ->
  all_coords x_start x_end y_start y_end = [].
Proof.
  intros Hlt. apply length_zero_iff_nil, Nat2Z.inj.
  rewrite all_coords_length. nia.
Qed.

(** X11.  A rectangle with no address (an end before its start on either
    axis) is no error: with a pool of at least one worker
    [download_tiles_parallel] returns the empty dictionary, and it asks the
    server nothing, since this holds against every server. *)
Theorem download_tiles_parallel_empty_rectangle (H : Http)
  (x_start x_end y_start y_end zoom : Z) (base_url : string) (max_workers : Z)
  (r : result tiles) :
  x_end < x_start \/ y_end < y_start -> 0 < max_workers ->
  (download_tiles_parallel H x_start x_end y_start y_end zoom base_url
     max_workers r <-> r = Ok []).
Proof.
  intros Hlt Hw. unfold download_tiles_parallel.
  rewrite (all_coords_empty _ _ _ _ Hlt).
  assert (Hrun : download_tiles_in_order H [] zoom base_url max_workers = Ok []).
  { unfold download_tiles_in_order.
    replace (max_workers <=? 0) with false by (symmetry; apply Z.leb_gt; lia).
    reflexivity. }
  split.
  - intros (order & HP & <-).
    apply Permutation_sym, Permutation_nil in HP. subst order. exact Hrun.
  - intros ->. exists []. split; [apply Permutation_refl | exact Hrun].
Qed.

Lemma download_tiles_parallel_empty_rectangle_witness :
  download_tiles_parallel offline_server 6 5 10 11 15 base_url_superres 10
    (Ok []).
Proof.
  apply (download_tiles_parallel_empty_rectangle offline_server 6 5 10 11 15
           base_url_superres 10 (Ok [])); [lia | lia | reflexivity].
Defined.

(** X12.  The dictionary keeps the order of completion: a run whose futures
    complete in the order [completed] returns the addresses whose task
    stored a tile in that same order, each once.  Its first entry, which
    [stitch_tiles] samples for the tile size, is the first tile to arrive. *)
Theorem download_tiles_in_order_keys (H : Http)
  (x_start x_end y_start y_end zoom : Z) (base_url : string) (max_workers : Z)
  (completed : list coord) (d : tiles) :
  Permutation completed (all_coords x_start x_end y_start y_end) ->
  download_tiles_in_order H completed zoom base_url max_workers = Ok d ->
  dict_keys d = filter (task_succeeded H zoom base_url) completed /\
  NoDup (dict_keys d).
Proof.
  intros HP Hrun.
  destruct (download_tiles_in_order_Ok_inv _ _ _ _ _ _ _ _ _ _ HP Hrun)
    as (-> & ND & _).
  split; [apply fetched_keys | now apply fetched_NoDup].
Qed.

Lemma download_tiles_in_order_keys_witness :
  dict_keys [((6, 11), gradient_tile); ((5, 10), solid_tile (200, 30, 30))]
  = filter (task_succeeded tile_server 15 base_url_superres)
      (rev (all_coords 5 6 10 11)) /\
  NoDup
    (dict_keys [((6, 11), gradient_tile); ((5, 10), solid_tile (200, 30, 30))]).
Proof.
  apply (download_tiles_in_order_keys tile_server 5 6 10 11 15
           base_url_superres 10).
  - apply Permutation_sym, Permutation_rev.
  - vm_compute. reflexivity.
Defined.

(** X13.  Which error comes out: a run raises [e] exactly when, in the order
    of completion, the first task that raised anything raised [e]; the
    tasks that completed before it do not matter, nor do those after. *)
Theorem download_tiles_in_order_first_error (H : Http)
  (completed : list coord) (zoom : Z) (base_url : string) (max_workers : Z)
  (e : exn) :
  0 < max_workers ->
  (download_tiles_in_order H completed zoom base_url max_workers = Raise e <->
   exists before c after,
     completed = before ++ c :: after /\
     (forall c', In c' before -> task_raised H zoom base_url c' = false) /\
     download_single_tile H zoom base_url c = Raise e).
Proof.
  intros Hw. unfold download_tiles_in_order.
  replace (max_workers <=? 0) with false by (symmetry; apply Z.leb_gt; lia).
  generalize (@nil (coord * Image)) as d0.
  induction completed as [|c0 rest IH]; intros d0.
  - cbn. split; [discriminate|].
    intros (before & c & after & E & _). now destruct before.
  - cbn [map collect].
    destruct (download_single_tile H zoom base_url c0) as [[[k t]|]|e0] eqn:E0.
    + rewrite IH. split.
      * intros (before & c & after & -> & Hb & Hc).
        exists (c0 :: before), c, after. repeat split; auto.
        intros c' [<-|Hin]; [|auto].
        unfold task_raised. now rewrite E0.
      * intros (before & c & after & E & Hb & Hc).
        destruct before as [|b before]; inversion E; subst.
        -- congruence.
        -- exists before, c, after. repeat split; auto.
           intros c' Hin. apply Hb. now right.
    + rewrite IH. split.
      * intros (before & c & after & -> & Hb & Hc).
        exists (c0 :: before), c, after. repeat split; auto.
        intros c' [<-|Hin]; [|auto].
        unfold task_raised. now rewrite E0.
      * intros (before & c & after & E & Hb & Hc).
        destruct before as [|b before]; inversion E; subst.
        -- congruence.
        -- exists before, c, after. repeat split; auto.
           intros c' Hin. apply Hb. now right.
    + split.
      * intros [= <-]. exists [], c0, rest. repeat split; auto.
        intros c' [].
      * intros (before & c & after & E & Hb & Hc).
        destruct before as [|b before]; inversion E; subst.
        -- congruence.
        -- specialize (Hb b (or_introl eq_refl)).
           unfold task_raised in Hb. rewrite E0 in Hb. discriminate.
Qed.

Lemma download_tiles_in_order_first_error_witness :
  download_tiles_in_order html_server [(5, 10); (6, 10)] 15 base_url_superres 10
  = Raise UnidentifiedImageError.
Proof.
  apply (download_tiles_in_order_first_error html_server [(5, 10); (6, 10)]
           15 base_url_superres 10 UnidentifiedImageError); [lia|].
  exists [], (5, 10), [(6, 10)].
  split; [reflexivity|]. split; [intros c' []|].
  vm_compute. reflexivity.
Defined.

(** ** More on the stitcher *)

(** X14.  With a first tile of positive size, [stitch_tiles] raises
    [ValueError] exactly when the rectangle is inverted by more than one on
    an axis (an end below its start less one); otherwise it returns a canvas
    sized from that first tile, uniform tiles or not.  A rectangle with no
    column or no row gives an empty canvas, not an error. *)
Theorem stitch_tiles_inverted_rectangle (k0 : coord) (sample : Image)
  (rest : tiles) (x0 x1 y0 y1 w h : Z) :
  size sample = (w, h) -> 0 < w -> 0 < h ->
  (stitch_tiles ((k0, sample) :: rest) (x0, x1) (y0, y1) = Raise ValueError <->
   x1 < x0 - 1 \/ y1 < y0 - 1) /\
  (x0 - 1 <= x1 -> y0 - 1 <= y1 ->
   exists img,
     stitch_tiles ((k0, sample) :: rest) (x0, x1) (y0, y1) = Ok (Some img) /\
     size img = (w * (x1 - x0 + 1), h * (y1 - y0 + 1))).
Proof.
  intros Hs Hw Hh. unfold stitch_tiles. rewrite Hs. cbn [fst snd].
  unfold Image_new.
  destruct ((w * (x1 - x0 + 1) <? 0) || (h * (y1 - y0 + 1) <? 0)) eqn:C.
  - apply orb_true_iff in C. rewrite !Z.ltb_lt in C. cbn [bind]. split.
    + split; [intros _; nia | reflexivity].
    + intros Hx Hy. exfalso. nia.
  - apply orb_false_iff in C. rewrite !Z.ltb_ge in C. cbn [bind]. split.
    + split; [discriminate | intros Hxy; exfalso; nia].
    + intros _ _. eexists. split; [reflexivity|].
      rewrite stitch_loops_flat, stitch_cells_size. reflexivity.
Qed.

Lemma stitch_tiles_inverted_rectangle_witness :
  stitch_tiles [((5, 10), solid_tile (200, 30, 30))] (6, 4) (10, 10)
  = Raise ValueError /\
  exists img,
    stitch_tiles [((5, 10), solid_tile (200, 30, 30))] (6, 5) (10, 10)
    = Ok (Some img) /\ size img = (0, 256).
Proof.
  destruct (stitch_tiles_inverted_rectangle (5, 10) (solid_tile (200, 30, 30))
              [] 6 4 10 10 256 256) as [Hr _]; [reflexivity | lia | lia |].
  destruct (stitch_tiles_inverted_rectangle (5, 10) (solid_tile (200, 30, 30))
              [] 6 5 10 10 256 256) as [_ Hs]; [reflexivity | lia | lia |].
  split; [apply Hr; lia | apply Hs; lia].
Defined.

Lemma fold_left_pointwise_In {A B : Type} (f g : A -> B -> A) (l : list B)
  (a : A) :
  (forall a b, In b l -> f a b = g a b) -> fold_left f l a = fold_left g l a.
Proof.
  revert a. induction l as [|b l IH]; intros a E; [reflexivity|].
  cbn [fold_left]. rewrite E by now left.
  apply IH. intros a' b' Hin. apply E. now right.
Qed.

(** X15.  [stitch_tiles] reads the dictionary through the size of its first
    tile and the entries of the rectangle only: two dictionaries that agree
    on these are stitched to the same result; tiles stored under addresses
    outside the rectangle are ignored. *)
Theorem stitch_tiles_rectangle_only (d1 d2 : tiles) (x0 x1 y0 y1 : Z) :
  sample_size d1 = sample_size d2 ->
  (forall x y, x0 <= x <= x1 -> y0 <= y <= y1 ->
               dict_get (x, y) d1 = dict_get (x, y) d2) ->
  stitch_tiles d1 (x0, x1) (y0, y1) = stitch_tiles d2 (x0, x1) (y0, y1).
Proof.
  intros Hs Hg.
  destruct d1 as [|[k1 s1] r1], d2 as [|[k2 s2] r2]; try discriminate;
    [reflexivity|].
  cbn in Hs. inversion Hs as [Hs'].
  unfold stitch_tiles. rewrite Hs'. destruct (size s2) as [w h].
  cbn [fst snd].
  destruct (Image_new _) as [canvas|e]; [|reflexivity].
  cbn [bind]. do 2 f_equal.
  apply fold_left_pointwise_In. intros st y Hy.
  apply fold_left_pointwise_In. intros st' x Hx.
  apply py_range_In in Hx, Hy.
  unfold stitch_cell. rewrite Hg by lia. reflexivity.
Qed.

Lemma stitch_tiles_rectangle_only_witness :
  stitch_tiles
    [((5, 10), solid_tile (200, 30, 30)); ((9, 9), gradient_tile)]
    (5, 6) (10, 10)
  = stitch_tiles [((5, 10), solid_tile (200, 30, 30))] (5, 6) (10, 10).
Proof.
  apply stitch_tiles_rectangle_only; [reflexivity|].
  intros x y Hx Hy. cbn [dict_get].
  destruct (coord_eqb (x, y) (5, 10)); [reflexivity|].
  replace (coord_eqb (x, y) (9, 9)) with false; [reflexivity|].
  symmetry. apply coord_eqb_neq. intros E. inversion E. lia.
Defined.

(** X16.  Every pixel of the canvas is accounted for.  With uniform tiles
    of positive size over an ordered rectangle, the pixel [(p, q)] of the
    canvas is the pixel [(p mod w, q mod h)] of the tile stored under
    [(x_min + p / w, y_min + q / h)], or black when there is none; outside
    the canvas there is no pixel. *)
Theorem stitch_tiles_every_pixel (d : tiles) (x0 x1 y0 y1 w h : Z) :
  d <> [] -> uniform_size d w h -> 0 < w -> 0 < h ->
  x0 <= x1 -> y0 <= y1 ->
  exists img,
    stitch_tiles d (x0, x1) (y0, y1) = Ok (Some img) /\
    forall p q,
      pixel_at img p q
      = if (0 <=? p) && (p <? w * (x1 - x0 + 1))
           && (0 <=? q) && (q <? h * (y1 - y0 + 1))
        then Some (cell_pixel d x0 y0 w h p q)
        else None.
Proof.
  intros Hd Hu Hw Hh Hx Hy.
  destruct (stitch_tiles_spec d x0 x1 y0 y1 w h Hd Hu) as (img & Hr & Hs & Hp);
    try lia.
  exists img. split; [exact Hr|]. intros p q.
  destruct ((0 <=? p) && (p <? w * (x1 - x0 + 1))
            && (0 <=? q) && (q <? h * (y1 - y0 + 1))) eqn:C.
  - rewrite !andb_true_iff, !Z.leb_le, !Z.ltb_lt in C.
    destruct C as [[[Hp0 Hp1] Hq0] Hq1].
    pose proof (Z.div_pos p w Hp0 Hw).
    pose proof (Z.div_pos q h Hq0 Hh).
    assert (p / w < x1 - x0 + 1) by (apply Z.div_lt_upper_bound; lia).
    assert (q / h < y1 - y0 + 1) by (apply Z.div_lt_upper_bound; lia).
    pose proof (Z.mod_pos_bound p w Hw).
    pose proof (Z.mod_pos_bound q h Hh).
    specialize (Hp (x0 + p / w) (y0 + q / h) (p mod w) (q mod h)
                  ltac:(lia) ltac:(lia) ltac:(lia) ltac:(lia)).
    replace ((x0 + p / w - x0) * w + p mod w) with p in Hp
      by (rewrite (Z.div_mod p w) at 1 by lia; ring).
    replace ((y0 + q / h - y0) * h + q mod h) with q in Hp
      by (rewrite (Z.div_mod q h) at 1 by lia; ring).
    exact Hp.
  - unfold pixel_at. rewrite Hs, C. reflexivity.
Qed.

Lemma stitch_tiles_every_pixel_witness :
  exists img,
    stitch_tiles [((5, 10), solid_tile (200, 30, 30)); ((6, 10), gradient_tile)]
      (5, 6) (10, 10) = Ok (Some img) /\
    pixel_at img 300 7 = Some (44, 7, 255) /\
    pixel_at img 100 7 = Some (200, 30, 30) /\
    pixel_at img 512 7 = None.
Proof.
  destruct (stitch_tiles_every_pixel
              [((5, 10), solid_tile (200, 30, 30)); ((6, 10), gradient_tile)]
              5 6 10 10 256 256) as (img & Hr & Hp);
    [discriminate | repeat constructor | lia ..|].
  exists img. split; [exact Hr|].
  rewrite !Hp. repeat split.
Defined.

(** ** From the tile range to the saved image *)

Section Pipeline.

Variables (H : Http) (zoom : Z) (base_url : string).

Lemma fetched_get (order : list coord) (x y : Z) (t : Image) :
  NoDup order ->
  (dict_get (x, y) (fetched H zoom base_url order) = Some t <->
   In (x, y) order /\ download_tile H x y zoom base_url = Ok (Some t)).
Proof.
  intros ND.
  rewrite dict_get_In_iff by now apply fetched_NoDup.
  rewrite fetched_In, download_single_tile_Some. tauto.
Qed.

Lemma fetched_get_permuted (o o' : list coord) (k : coord) :
  Permutation o o' -> NoDup o ->
  dict_get k (fetched H zoom base_url o) = dict_get k (fetched H zoom base_url o').
Proof.
  intros HP ND. destruct k as [x y].
  assert (ND' : NoDup o') by (eapply Permutation_NoDup; eassumption).
  destruct (dict_get (x, y) (fetched H zoom base_url o)) as [t|] eqn:G.
  - symmetry. apply fetched_get in G; [|exact ND]. apply fetched_get; [exact ND'|].
    destruct G as [Hin Ht]. split; [|exact Ht].
    eapply Permutation_in; eassumption.
  - destruct (dict_get (x, y) (fetched H zoom base_url o')) as [t|] eqn:G';
      [|reflexivity].
    apply fetched_get in G'; [|exact ND']. destruct G' as [Hin Ht].
    assert (G2 : dict_get (x, y) (fetched H zoom base_url o) = Some t).
    { apply fetched_get; [exact ND|]. split; [|exact Ht].
      eapply Permutation_in; [apply Permutation_sym|]; eassumption. }
    congruence.
Qed.

Lemma fetched_uniform (order : list coord) (w h : Z) :
  (forall x y t, download_tile H x y zoom base_url = Ok (Some t) ->
                 size t = (w, h)) ->
  uniform_size (fetched H zoom base_url order) w h.
Proof.
  intros Hu. unfold uniform_size. apply Forall_forall.
  intros [[x y] t] Hin. apply fetched_In in Hin. destruct Hin as [_ Ht].
  apply download_single_tile_Some in Ht. destruct Ht as [_ Ht].
  cbn [snd]. eapply Hu, Ht.
Qed.

Lemma download_tiles_in_order_permuted (max_workers : Z)
  (coords o o' : list coord) :
  NoDup coords -> Permutation o coords -> Permutation o' coords ->
  (exists e e',
     download_tiles_in_order H o zoom base_url max_workers = Raise e /\
     download_tiles_in_order H o' zoom base_url max_workers = Raise e') \/
  (download_tiles_in_order H o zoom base_url max_workers
   = Ok (fetched H zoom base_url o) /\
   download_tiles_in_order H o' zoom base_url max_workers
   = Ok (fetched H zoom base_url o')).
Proof.
  intros ND HP HP'. unfold download_tiles_in_order.
  destruct (max_workers <=? 0); [left; eauto|].
  destruct (existsb (task_raised H zoom base_url) coords) eqn:R.
  - left. apply existsb_exists in R. destruct R as (c & Hin & R).
    destruct (collect_raise H zoom base_url o [] c
                (Permutation_in _ (Permutation_sym HP) Hin) R) as [e He].
    destruct (collect_raise H zoom base_url o' [] c
                (Permutation_in _ (Permutation_sym HP') Hin) R) as [e' He'].
    eauto.
  - right.
    assert (Hnr : forall c, In c coords -> task_raised H zoom base_url c = false).
    { intros c Hin. destruct (task_raised H zoom base_url c) eqn:Rc; auto.
      assert (existsb (task_raised H zoom base_url) coords = true)
        by (apply existsb_exists; eauto).
      congruence. }
    split; rewrite collect_no_raise; auto.
    + exact (Permutation_NoDup (Permutation_sym HP) ND).
    + intros c Hin. exact (Hnr c (Permutation_in _ HP Hin)).
    + exact (Permutation_NoDup (Permutation_sym HP') ND).
    + intros c Hin. exact (Hnr c (Permutation_in _ HP' Hin)).
Qed.

End Pipeline.

(** X17.  End to end.  When the rectangle resolves, no task raises and the
    server's tiles have one positive size, the last part of [main] saves
    nothing if no tile was fetched, and otherwise saves, under
    [stitched_image_{file_suffix}.png], a canvas of the rectangle's size in
    which each cell shows the tile [download_tile] returned for its address,
    or black where the answer was not a tile: whatever the order in which
    the downloads complete, and never failing in the stitcher. *)
Theorem fetch_and_stitch_saves (P : Pyproj) (M : Libm) (H : Http)
  (as_completed : list coord -> list coord)
  (ul_x ul_y lr_x lr_y : float) (ZOOM utm_zone : Z)
  (BASE_URL file_suffix : string) (x_start x_end y_start y_end w h : Z) :
  get_tile_bounds_for_utm_region P M ul_x ul_y lr_x lr_y ZOOM utm_zone
  = Ok (x_start, x_end, y_start, y_end) ->
  Permutation (as_completed (all_coords x_start x_end y_start y_end))
    (all_coords x_start x_end y_start y_end) ->
  (forall c, In c (all_coords x_start x_end y_start y_end) ->
             task_raised H ZOOM BASE_URL c = false) ->
  (forall x y t, download_tile H x y ZOOM BASE_URL = Ok (Some t) ->
                 size t = (w, h)) ->
  0 < w -> 0 < h ->
  ((forall c, In c (all_coords x_start x_end y_start y_end) ->
              task_succeeded H ZOOM BASE_URL c = false) ->
   fetch_and_stitch P M H as_completed ul_x ul_y lr_x lr_y ZOOM utm_zone
     BASE_URL file_suffix = Ok NoTilesDownloaded) /\
  ((exists c, In c (all_coords x_start x_end y_start y_end) /\
              task_succeeded H ZOOM BASE_URL c = true) ->
   exists img,
     fetch_and_stitch P M H as_completed ul_x ul_y lr_x lr_y ZOOM utm_zone
       BASE_URL file_suffix
     = Ok (Saved ("stitched_image_" ++ file_suffix ++ ".png")%string img) /\
     size img = (w * (x_end - x_start + 1), h * (y_end - y_start + 1)) /\
     forall x y i j,
       x_start <= x <= x_end -> y_start <= y <= y_end ->
       0 <= i < w -> 0 <= j < h ->
       pixel_at img ((x - x_start) * w + i) ((y - y_start) * h + j)
       = Some (match download_tile H x y ZOOM BASE_URL with
               | Ok (Some t) => pix t i j
               | _ => black
               end)).
Proof.
  intros Hb HP Hnr Hu Hw Hh.
  set (coords := all_coords x_start x_end y_start y_end) in *.
  set (order := as_completed coords) in *.
  assert (Hord : x_start <= x_end /\ y_start <= y_end).
  { apply get_tile_bounds_Ok_inv in Hb.
    destruct Hb as (? & ? & ? & ? & ? & ? & ? & ? & _ & _ & _ & _ & E).
    inversion E; subst. lia. }
  destruct (download_tiles_in_order_no_raise H x_start x_end y_start y_end
              ZOOM BASE_URL 10 order ltac:(lia) HP Hnr) as [Hrun _].
  assert (ND : NoDup order)
    by (eapply Permutation_NoDup;
        [apply Permutation_sym, HP | apply all_coords_NoDup]).
  assert (Hkeys : dict_keys (fetched H ZOOM BASE_URL order)
                  = filter (task_succeeded H ZOOM BASE_URL) order)
    by apply fetched_keys.
  unfold fetch_and_stitch. rewrite Hb. cbn [bind].
  fold coords. fold order. rewrite Hrun. cbn [bind].
  split.
  - intros Hnone.
    destruct (fetched H ZOOM BASE_URL order) as [|[k t] rest]; [reflexivity|].
    exfalso.
    assert (Hin : In k (filter (task_succeeded H ZOOM BASE_URL) order))
      by (rewrite <- Hkeys; now left).
    apply filter_In in Hin. destruct Hin as [Hin Hs].
    rewrite Hnone in Hs; [discriminate|].
    eapply Permutation_in; eassumption.
  - intros (c & Hin & Hs).
    assert (Hne : fetched H ZOOM BASE_URL order <> []).
    { intros E. rewrite E in Hkeys. cbn in Hkeys.
      assert (Hc : In c (filter (task_succeeded H ZOOM BASE_URL) order)).
      { apply filter_In. split; [|exact Hs].
        eapply Permutation_in; [apply Permutation_sym|]; eassumption. }
      rewrite <- Hkeys in Hc. exact Hc. }
    destruct (stitch_tiles_spec (fetched H ZOOM BASE_URL order)
                x_start x_end y_start y_end w h Hne
                (fetched_uniform H ZOOM BASE_URL order w h Hu))
      as (img & Hr & Hsz & Hp); try lia.
    destruct (fetched H ZOOM BASE_URL order) as [|kt rest] eqn:Ef;
      [congruence|].
    rewrite Hr. cbn [bind].
    exists img. split; [reflexivity|]. split; [exact Hsz|].
    intros x y i j Hx Hy Hi Hj. rewrite (Hp x y i j Hx Hy Hi Hj). f_equal.
    assert (Hxy : In (x, y) order).
    { eapply Permutation_in; [apply Permutation_sym, HP|].
      apply all_coords_In. lia. }
    rewrite <- Ef.
    destruct (download_tile H x y ZOOM BASE_URL) as [[t|]|e] eqn:D.
    + assert (G : dict_get (x, y) (fetched H ZOOM BASE_URL order) = Some t)
        by (apply fetched_get; auto).
      rewrite G. reflexivity.
    + destruct (dict_get (x, y) (fetched H ZOOM BASE_URL order)) as [t|] eqn:G;
        [|reflexivity].
      apply fetched_get in G; [|exact ND]. destruct G as [_ G]. congruence.
    + destruct (dict_get (x, y) (fetched H ZOOM BASE_URL order)) as [t|] eqn:G;
        [|reflexivity].
      apply fetched_get in G; [|exact ND]. destruct G as [_ G]. congruence.
Qed.

Lemma equator_server_answers (x y : Z) :
  download_tile equator_server x y 8 base_url_superres = Ok None \/
  download_tile equator_server x y 8 base_url_superres = Ok (Some gradient_tile).
Proof.
  unfold download_tile, equator_server; cbn [requests_get Image_open].
  destruct (tile_url base_url_superres 8 x y
            =? tile_url base_url_superres 8 131 128)%string;
    [right | left]; reflexivity.
Qed.

Lemma equator_server_no_raise (c : coord) :
  task_raised equator_server 8 base_url_superres c = false.
Proof.
  destruct c as [x y]. unfold task_raised, download_single_tile.
  destruct (equator_server_answers x y) as [-> | ->]; reflexivity.
Qed.

Lemma equator_server_uniform (x y : Z) (t : Image) :
  download_tile equator_server x y 8 base_url_superres = Ok (Some t) ->
  size t = (256, 256).
Proof.
  destruct (equator_server_answers x y) as [-> | ->]; intros E; inversion E.
  reflexivity.
Qed.

(** Zone 31 on the equator at zoom 8 is the tiles 130..132 of row 128; the
    server has the middle one. *)
Lemma fetch_and_stitch_saves_witness :
  exists img,
    fetch_and_stitch equator_pyproj equator_libm equator_server (@rev coord)
      833978.557 0 500000 0 8 31 base_url_superres "set1_z31"
    = Ok (Saved "stitched_image_set1_z31.png" img) /\
    size img = (768, 256) /\
    pixel_at img (256 + 3) 7 = Some (3, 7, 255) /\
    pixel_at img 3 7 = Some black.
Proof.
  destruct (fetch_and_stitch_saves equator_pyproj equator_libm equator_server
              (@rev coord) 833978.557 0 500000 0 8 31 base_url_superres
              "set1_z31" 130 132 128 128 256 256) as [_ Hsave].
  - vm_compute. reflexivity.
  - apply Permutation_sym, Permutation_rev.
  - intros c _. apply equator_server_no_raise.
  - apply equator_server_uniform.
  - lia.
  - lia.
  - destruct Hsave as (img & Hr & Hs & Hp).
    + exists (131, 128). split; [apply all_coords_In; lia|].
      vm_compute. reflexivity.
    + exists img. split; [exact Hr|]. split; [exact Hs|]. split.
      * exact (Hp 131 128 3 7 ltac:(lia) ltac:(lia) ltac:(lia) ltac:(lia)).
      * exact (Hp 130 128 3 7 ltac:(lia) ltac:(lia) ltac:(lia) ltac:(lia)).
Defined.

(** X18.  The saved image does not depend on the order in which the
    downloads complete: when the server's tiles have one size, two runs of
    the last part of [main] under two completion orders either both raise
    or end alike, saving the same image under the same name or saving
    nothing. *)
Theorem fetch_and_stitch_any_order (P : Pyproj) (M : Libm) (H : Http)
  (as_completed as_completed' : list coord -> list coord)
  (ul_x ul_y lr_x lr_y : float) (ZOOM utm_zone : Z)
  (BASE_URL file_suffix : string) (w h : Z) :
  (forall l, Permutation (as_completed l) l) ->
  (forall l, Permutation (as_completed' l) l) ->
  (forall x y t, download_tile H x y ZOOM BASE_URL = Ok (Some t) ->
                 size t = (w, h)) ->
  match
    fetch_and_stitch P M H as_completed ul_x ul_y lr_x lr_y ZOOM utm_zone
      BASE_URL file_suffix,
    fetch_and_stitch P M H as_completed' ul_x ul_y lr_x lr_y ZOOM utm_zone
      BASE_URL file_suffix
  with
  | Ok o, Ok o' => o = o'
  | Raise _, Raise _ => True
  | _, _ => False
  end.
Proof.
  intros HP HP' Hu. unfold fetch_and_stitch.
  destruct (get_tile_bounds_for_utm_region P M ul_x ul_y lr_x lr_y ZOOM utm_zone)
    as [[[[x_start x_end] y_start] y_end]|e]; cbn [bind]; [|exact I].
  set (coords := all_coords x_start x_end y_start y_end).
  destruct (download_tiles_in_order_permuted H ZOOM BASE_URL 10 coords
              (as_completed coords) (as_completed' coords)
              (all_coords_NoDup _ _ _ _) (HP coords) (HP' coords))
    as [(e & e' & -> & ->)|[-> ->]]; cbn [bind]; [exact I|].
  assert (HPo : Permutation (as_completed coords) (as_completed' coords))
    by (eapply Permutation_trans; [apply HP | apply Permutation_sym, HP']).
  assert (ND : NoDup (as_completed coords))
    by (exact (Permutation_NoDup (Permutation_sym (HP coords))
                 (all_coords_NoDup _ _ _ _))).
  pose proof (fetched_permutation H ZOOM BASE_URL _ _ HPo) as HPf.
  pose proof (stitch_tiles_ext
                (fetched H ZOOM BASE_URL (as_completed coords))
                (fetched H ZOOM BASE_URL (as_completed' coords))
                (x_start, x_end) (y_start, y_end) w h
                (fun k => fetched_get_permuted H ZOOM BASE_URL _ _ k HPo ND)
                (fetched_uniform H ZOOM BASE_URL _ w h Hu)
                (fetched_uniform H ZOOM BASE_URL _ w h Hu)) as Hst.
  destruct (fetched H ZOOM BASE_URL (as_completed coords)) as [|kt d],
    (fetched H ZOOM BASE_URL (as_completed' coords)) as [|kt' d'].
  - reflexivity.
  - apply Permutation_nil in HPf. discriminate.
  - apply Permutation_sym, Permutation_nil in HPf. discriminate.
  - rewrite Hst.
    destruct (stitch_tiles (kt' :: d') (x_start, x_end) (y_start, y_end))
      as [[img|]|e]; cbn [bind]; auto.
Qed.

Lemma fetch_and_stitch_any_order_witness :
  fetch_and_stitch equator_pyproj equator_libm equator_server (fun l => l)
    833978.557 0 500000 0 8 31 base_url_superres "set1_z31"
  = fetch_and_stitch equator_pyproj equator_libm equator_server (@rev coord)
      833978.557 0 500000 0 8 31 base_url_superres "set1_z31".
Proof.
  pose proof (fetch_and_stitch_any_order equator_pyproj equator_libm
                equator_server (fun l => l) (@rev coord)
                833978.557 0 500000 0 8 31 base_url_superres "set1_z31"
                256 256
                (fun l => Permutation_refl l)
                (fun l => Permutation_sym (Permutation_rev l))
                equator_server_uniform) as Hany.
  destruct (fetch_and_stitch equator_pyproj equator_libm equator_server
              (fun l => l) 833978.557 0 500000 0 8 31 base_url_superres
              "set1_z31") as [o|e] eqn:E1.
  - destruct (fetch_and_stitch equator_pyproj equator_libm equator_server
                (@rev coord) 833978.557 0 500000 0 8 31 base_url_superres
                "set1_z31") as [o'|e'].
    + f_equal. exact Hany.
    + contradiction.
  - vm_compute in E1. discriminate.
Defined.
